(** * The Vultr Kubernetes (VKE) resource of terraform-provider-vultr

    A shallow embedding of [vultr/resource_vultr_kubernetes.go]: the CRUD
    operations of the [vultr_kubernetes] resource, the refresh function
    [newVKEStateRefresh] and [waitForVKEAvailable], with the properties
    of the convergence poller proved over them.

    Remote calls are modelled by explicit state passing: the state is the
    chronological list of calls made so far, and the environment answers
    each call as a function of that history.  The calls of [log.Printf]
    are left out: they change nothing the functions return. *)

From Stdlib Require Import ZArith String Ascii List Bool Lia.
From stdpp Require Import base strings gmap.
Import ListNotations.

Local Open Scope Z_scope.
Local Open Scope string_scope.
Local Open Scope list_scope.

(** ** Wire structures of the govultr client (the fields the source uses) *)

(** [time.Duration]: a count of nanoseconds. *)
Abbreviation Duration := Z.

Module time.
Definition Second : Duration := 1000000000.
Definition Minute : Duration := 60 * Second.
End time.

Record Node := {
  Node_ID : string;
  Node_DateCreated : string;
  Node_Label : string;
  Node_Status : string
}.

Record NodePool := {
  NodePool_ID : string;
  NodePool_DateCreated : string;
  NodePool_DateUpdated : string;
  NodePool_Label : string;
  NodePool_Plan : string;
  NodePool_Status : string;
  NodePool_NodeQuantity : Z;
  NodePool_Tag : string;
  NodePool_Nodes : list Node;
  NodePool_AutoScaler : bool;
  NodePool_MinNodes : Z;
  NodePool_MaxNodes : Z
}.

Record Cluster := {
  Cluster_ID : string;
  Cluster_Label : string;
  Cluster_Region : string;
  Cluster_Version : string;
  Cluster_Status : string;
  Cluster_IP : string;
  Cluster_Endpoint : string;
  Cluster_ClusterSubnet : string;
  Cluster_ServiceSubnet : string;
  Cluster_DateCreated : string;
  Cluster_NodePools : list NodePool
}.

(** [AutoScaler] is a [*bool]; [None] is the nil pointer. *)
Record NodePoolReq := {
  NodePoolReq_NodeQuantity : Z;
  NodePoolReq_Label : string;
  NodePoolReq_Plan : string;
  NodePoolReq_Tag : string;
  NodePoolReq_AutoScaler : option bool;
  NodePoolReq_MinNodes : Z;
  NodePoolReq_MaxNodes : Z
}.

Record NodePoolReqUpdate := {
  NodePoolReqUpdate_NodeQuantity : Z;
  NodePoolReqUpdate_Tag : string;
  NodePoolReqUpdate_AutoScaler : option bool;
  NodePoolReqUpdate_MinNodes : Z;
  NodePoolReqUpdate_MaxNodes : Z
}.

Record ClusterReq := {
  ClusterReq_Label : string;
  ClusterReq_Region : string;
  ClusterReq_Version : string;
  ClusterReq_NodePools : list NodePoolReq
}.

Record ClusterReqUpdate := {
  ClusterReqUpdate_Label : string
}.

Record KubeConfig := {
  KubeConfig_KubeConfig : string
}.

Definition BoolToBoolPtr (b : bool) : option bool := Some b.

(** ** Errors and diagnostics *)

(** An error returned by the API client; [Error] is the text of
    [err.Error()]. *)
Record ApiError := { Error : string }.

(** The Go [error] values that occur in the file.  [Errorf] is
    [fmt.Errorf] with its format string and its arguments kept apart; the
    last four are the failures of the convergence poller, named after the
    classifications of the specification. *)
Inductive error :=
| Remote (e : ApiError)
| Errorf (format : string) (args : list string)
| NotFoundError
| UnexpectedStateError (state : string)
| TimeoutError
| ContextCanceled.

Inductive Arg :=
| AStr (s : string)
| AErr (e : error).

(** [diag.Errorf format args...]: one error diagnostic; the format string
    and the arguments are kept as the source writes them. [nil] is no
    diagnostic at all. *)
Record Diagnostic := {
  Diagnostic_format : string;
  Diagnostic_args : list Arg
}.

Definition Diagnostics := list Diagnostic.

Module diag.
Definition Errorf (format : string) (args : list Arg) : Diagnostics :=
  [ {| Diagnostic_format := format; Diagnostic_args := args |} ].
Definition HasError (ds : Diagnostics) : bool :=
  match ds with [] => false | _ :: _ => true end.
End diag.

(** ** [strings.Contains] *)

Module strings.
Fixpoint Contains (s substr : string) : bool :=
  String.prefix substr s ||
  match s with
  | EmptyString => false
  | String _ s' => Contains s' substr
  end.
End strings.

(** ** Resource data *)

(** The elements of the [node_pools] list attribute and of their [nodes]
    lists: maps with fixed keys, typed by the schema. *)
Record NodeAttrs := {
  node_id : string;
  node_status : string;
  node_date_created : string;
  node_label : string
}.

Record NodePoolAttrs := {
  pool_label : string;
  pool_plan : string;
  pool_node_quantity : Z;
  pool_id : string;
  pool_date_created : string;
  pool_date_updated : string;
  pool_status : string;
  pool_tag : string;
  pool_nodes : list NodeAttrs;
  pool_auto_scaler : bool;
  pool_min_nodes : Z;
  pool_max_nodes : Z
}.

Inductive AttrValue :=
| VString (s : string)
| VNodePools (l : list NodePoolAttrs).

(** [*schema.ResourceData]: the resource ID, the current attribute values
    (what [d.Get] reads and [d.Set] writes) and the prior state (what
    [d.HasChange] and [d.GetChange] compare against). *)
Record ResourceData := {
  Id : string;
  attrs : gmap string AttrValue;
  prior : gmap string AttrValue
}.

Definition SetId (v : string) (d : ResourceData) : ResourceData :=
  {| Id := v; attrs := attrs d; prior := prior d |}.

(** [d.Get(key).(string)]: the zero value when the key is unset. *)
Definition readString (m : gmap string AttrValue) (key : string) : string :=
  match m !! key with
  | Some (VString s) => s
  | _ => ""
  end.

(** [d.Get(key).([]interface{})] for the [node_pools] list. *)
Definition readNodePools (m : gmap string AttrValue) (key : string)
  : list NodePoolAttrs :=
  match m !! key with
  | Some (VNodePools l) => l
  | _ => []
  end.

Definition GetString (key : string) (d : ResourceData) : string :=
  readString (attrs d) key.

Definition GetNodePools (key : string) (d : ResourceData) : list NodePoolAttrs :=
  readNodePools (attrs d) key.

(** [d.GetOk]: the value, and whether it differs from the zero value. *)
Definition GetOkNodePools (key : string) (d : ResourceData)
  : list NodePoolAttrs * bool :=
  let l := GetNodePools key d in
  (l, match l with [] => false | _ :: _ => true end).

#[global] Instance NodeAttrs_eq_dec : EqDecision NodeAttrs.
Proof. solve_decision. Defined.

#[global] Instance NodePoolAttrs_eq_dec : EqDecision NodePoolAttrs.
Proof. solve_decision. Defined.

(** [d.HasChange]: the old and the new value differ. *)
Definition HasChangeString (key : string) (d : ResourceData) : bool :=
  negb (String.eqb (readString (prior d) key) (readString (attrs d) key)).

Definition HasChangeNodePools (key : string) (d : ResourceData) : bool :=
  negb (bool_decide (readNodePools (prior d) key = readNodePools (attrs d) key)).

(** [d.GetChange]: the old and the new value. *)
Definition GetChangeNodePools (key : string) (d : ResourceData)
  : list NodePoolAttrs * list NodePoolAttrs :=
  (readNodePools (prior d) key, readNodePools (attrs d) key).

(** ** The environment: API client, context and schema

    [History] is the chronological list of the calls made so far.  The
    environment fixes, for every history, the reply of the API to each
    call, whether the context has been cancelled, whether a waiting
    period has run past a given timeout, and whether the schema rejects a
    value given to [d.Set]. *)

Inductive Call :=
| CallCreateCluster (req : ClusterReq)
| CallGetCluster (id : string)
| CallGetKubeConfig (id : string)
| CallUpdateCluster (id : string) (req : ClusterReqUpdate)
| CallUpdateNodePool (id npID : string) (req : NodePoolReqUpdate)
| CallDeleteNodePool (id npID : string)
| CallCreateNodePool (id : string) (req : NodePoolReq)
| CallDeleteCluster (id : string)
| Sleep (d : Duration).

Definition History := list Call.

Record Env := {
  createCluster : History -> ClusterReq -> Cluster + ApiError;
  getCluster : History -> string -> Cluster + ApiError;
  getKubeConfig : History -> string -> KubeConfig + ApiError;
  updateCluster : History -> string -> ClusterReqUpdate -> option ApiError;
  updateNodePool :
    History -> string -> string -> NodePoolReqUpdate -> NodePool + ApiError;
  deleteNodePool : History -> string -> string -> option ApiError;
  createNodePool : History -> string -> NodePoolReq -> NodePool + ApiError;
  deleteCluster : History -> string -> option ApiError;
  cancelled : History -> bool;
  expired : History -> Duration -> bool;
  setError : string -> AttrValue -> option error
}.

(** The state monad over the history. *)
Definition M (A : Type) : Type := History -> A * History.

Definition ret {A} (a : A) : M A := fun h => (a, h).

Definition bind {A B} (c : M A) (k : A -> M B) : M B :=
  fun h => let (a, h1) := c h in k a h1.

Notation "'do' x <- c ; k" := (bind c (fun x => k))
  (at level 10, x name, c at level 100, k at level 200).

(** One call: the reply is the environment's, the call is appended to the
    history. *)
Definition call {A} (reply : History -> A) (c : Call) : M A :=
  fun h => (reply h, h ++ [c]).

(** [d.Set(key, v)]: the value is stored unless the schema rejects it. *)
Definition SetAttr (E : Env) (key : string) (v : AttrValue) (d : ResourceData)
  : ResourceData * option error :=
  match setError E key v with
  | Some e => (d, Some e)
  | None =>
    ({| Id := Id d; attrs := <[key := v]> (attrs d); prior := prior d |}, None)
  end.

(** ** Node pools *)

Definition tfVKEDefault : string := "tf-vke-default".

(** [pools] is the value [d.GetOk("node_pools")] returns, a
    [[]interface{}] of maps whose entries the schema types: the type
    assertions of lines 237 to 246 hold on it and are not modelled.  The
    [[]map[string]interface{}] that [flattenNodePool] returns is another
    Go type, on which the assertion of line 237 panics; it reaches
    [generateNodePool] only through [d.Set] and [d.GetOk]. *)
Fixpoint generateNodePool (pools : list NodePoolAttrs) : list NodePoolReq :=
  match pools with
  | [] => []
  | r :: rest =>
    {| NodePoolReq_NodeQuantity := pool_node_quantity r;
       NodePoolReq_Label := pool_label r;
       NodePoolReq_Plan := pool_plan r;
       NodePoolReq_Tag := tfVKEDefault;
       NodePoolReq_AutoScaler := BoolToBoolPtr (pool_auto_scaler r);
       NodePoolReq_MinNodes := pool_min_nodes r;
       NodePoolReq_MaxNodes := pool_max_nodes r |} :: generateNodePool rest
  end.

Definition flattenNode (v : Node) : NodeAttrs :=
  {| node_id := Node_ID v;
     node_status := Node_Status v;
     node_date_created := Node_DateCreated v;
     node_label := Node_Label v |}.

Definition flattenNodePool (np : NodePool) : list NodePoolAttrs :=
  let instances := map flattenNode (NodePool_Nodes np) in
  [ {| pool_label := NodePool_Label np;
       pool_plan := NodePool_Plan np;
       pool_node_quantity := NodePool_NodeQuantity np;
       pool_id := NodePool_ID np;
       pool_date_created := NodePool_DateCreated np;
       pool_date_updated := NodePool_DateUpdated np;
       pool_status := NodePool_Status np;
       pool_tag := NodePool_Tag np;
       pool_nodes := instances;
       pool_auto_scaler := NodePool_AutoScaler np;
       pool_min_nodes := NodePool_MinNodes np;
       pool_max_nodes := NodePool_MaxNodes np |} ].

(** ** The convergence poller *)

(** What one call of a [resource.StateRefreshFunc] returns:
    [(interface{}, string, error)].  The payload is [nil] or a cluster. *)
Record Observation := {
  raw : option Cluster;
  state : string;
  err : option error
}.

Definition StateRefreshFunc := M Observation.

(** [resource.StateChangeConf], with the fields the source sets. *)
Record StateChangeConf := {
  Pending : list string;
  Target : list string;
  Refresh : StateRefreshFunc;
  Timeout : Duration;
  Delay : Duration;
  MinTimeout : Duration;
  NotFoundChecks : nat
}.

(** What the wait returns: [(interface{}, error)]. *)
Definition WaitResult : Type := option Cluster * option error.

Definition inStates (label : string) (states : list string) : bool :=
  existsb (String.eqb label) states.

(** ** The functions of the source *)

Section Provider.

Variable E : Env.

(** [stateConf.WaitForStateContext(ctx)] of the plugin SDK, which is not
    under src/: the functions below are defined for any such function.
    [None] stands for a call that does not return. *)
Variable WaitForStateContext : StateChangeConf -> M (option WaitResult).

Definition CreateCluster (req : ClusterReq) : M (Cluster + ApiError) :=
  call (fun h => createCluster E h req) (CallCreateCluster req).

Definition GetCluster (id : string) : M (Cluster + ApiError) :=
  call (fun h => getCluster E h id) (CallGetCluster id).

Definition GetKubeConfig (id : string) : M (KubeConfig + ApiError) :=
  call (fun h => getKubeConfig E h id) (CallGetKubeConfig id).

Definition UpdateCluster (id : string) (req : ClusterReqUpdate)
  : M (option ApiError) :=
  call (fun h => updateCluster E h id req) (CallUpdateCluster id req).

Definition UpdateNodePool (id npID : string) (req : NodePoolReqUpdate)
  : M (NodePool + ApiError) :=
  call (fun h => updateNodePool E h id npID req) (CallUpdateNodePool id npID req).

Definition DeleteNodePool (id npID : string) : M (option ApiError) :=
  call (fun h => deleteNodePool E h id npID) (CallDeleteNodePool id npID).

Definition CreateNodePool (id : string) (req : NodePoolReq)
  : M (NodePool + ApiError) :=
  call (fun h => createNodePool E h id req) (CallCreateNodePool id req).


(** The closure returned by [newVKEStateRefresh]: one [GetCluster] call
    per invocation. *)
Definition newVKEStateRefresh (d : ResourceData) (attr : string)
  : StateRefreshFunc :=
  do r <- GetCluster (Id d);
  match r with
  | inr _ =>
    ret {| raw := None; state := "";
           err := Some (Errorf "error retrieving kubernetes cluster %s " [Id d]) |}
  | inl vke =>
    if String.eqb attr "status"
    then ret {| raw := Some vke; state := Cluster_Status vke; err := None |}
    else ret {| raw := None; state := ""; err := None |}
  end.

Definition waitForVKEAvailable (d : ResourceData) (target : string)
    (pending : list string) (attribute : string) : M (option WaitResult) :=
  let stateConf :=
    {| Pending := pending;
       Target := [target];
       Refresh := newVKEStateRefresh d attribute;
       Timeout := 60 * time.Minute;
       Delay := 10 * time.Second;
       MinTimeout := 5 * time.Second;
       NotFoundChecks := 60 |} in
  WaitForStateContext stateConf.

(** ** The resource operations *)

(** The loop of [Read] over [vke.NodePools]: the first pool tagged
    [tfVKEDefault] is written to [node_pools], and the loop ends there,
    with the error of [d.Set] if there is one. *)
Fixpoint setDefaultNodePool (pools : list NodePool) (d : ResourceData)
  : ResourceData * option error :=
  match pools with
  | [] => (d, None)
  | v :: rest =>
    if String.eqb tfVKEDefault (NodePool_Tag v)
    then SetAttr E "node_pools" (VNodePools (flattenNodePool v)) d
    else setDefaultNodePool rest d
  end.

(** [d.Set] of a string attribute whose error the source drops. *)
Definition SetString (key value : string) (d : ResourceData) : ResourceData :=
  fst (SetAttr E key (VString value) d).

Definition resourceVultrKubernetesRead (d : ResourceData)
  : M (Diagnostics * ResourceData) :=
  do r <- GetCluster (Id d);
  match r with
  | inr e =>
    if strings.Contains (Error e) "Unauthorized"
    then ret (diag.Errorf "API authorization error: %v" [AErr (Remote e)], d)
    else if strings.Contains (Error e) "Invalid resource ID"
    then ret ([], SetId "" d)
    else ret (diag.Errorf "error getting cluster (%s): %v"
                [AStr (Id d); AErr (Remote e)], d)
  | inl vke =>
    match setDefaultNodePool (Cluster_NodePools vke) d with
    | (d1, Some e) =>
      ret (diag.Errorf "error setting `node_pool`: %v" [AErr e], d1)
    | (d1, None) =>
      let d2 := SetString "date_created" (Cluster_DateCreated vke) d1 in
      let d3 := SetString "cluster_subnet" (Cluster_ClusterSubnet vke) d2 in
      let d4 := SetString "service_subnet" (Cluster_ServiceSubnet vke) d3 in
      let d5 := SetString "ip" (Cluster_IP vke) d4 in
      let d6 := SetString "endpoint" (Cluster_Endpoint vke) d5 in
      let d7 := SetString "status" (Cluster_Status vke) d6 in
      do c <- GetKubeConfig (Id d7);
      match c with
      | inr e =>
        ret (diag.Errorf "could not get kubeconfig : %v" [AErr (Remote e)], d7)
      | inl config =>
        ret ([], SetString "kube_config" (KubeConfig_KubeConfig config) d7)
      end
    end
  end.

(** The request [Create] sends. *)
Definition createRequest (d : ResourceData) : ClusterReq :=
  let nodePoolReq :=
    let (np, npOk) := GetOkNodePools "node_pools" d in
    if npOk then generateNodePool np else [] in
  {| ClusterReq_Label := GetString "label" d;
     ClusterReq_Region := GetString "region" d;
     ClusterReq_Version := GetString "version" d;
     ClusterReq_NodePools := nodePoolReq |}.

(** [None]: the wait does not return. *)
Definition resourceVultrKubernetesCreate (d : ResourceData)
  : M (option (Diagnostics * ResourceData)) :=
  do r <- CreateCluster (createRequest d);
  match r with
  | inr e =>
    ret (Some (diag.Errorf "error creating kubernetes cluster: %v"
                 [AErr (Remote e)], d))
  | inl cluster =>
    let d1 := SetId (Cluster_ID cluster) d in
    do w <- waitForVKEAvailable d1 "active" ["pending"] "status";
    match w with
    | None => ret None
    | Some (_, Some e) =>
      ret (Some (diag.Errorf
                   "error while waiting for kubernetes cluster %v to be completed: %v"
                   [AStr (Cluster_ID cluster); AErr e], d1))
    | Some (_, None) =>
      do res <- resourceVultrKubernetesRead d1;
      ret (Some res)
    end
  end.

(** The [label] block of [Update]; [Some] is an early return. *)
Definition updateLabel (d : ResourceData) : M (option Diagnostics) :=
  if HasChangeString "label" d then
    let req := {| ClusterReqUpdate_Label := GetString "label" d |} in
    do e <- UpdateCluster (Id d) req;
    match e with
    | Some e =>
      ret (Some (diag.Errorf "error updating vke cluster (%v): %v"
                   [AStr (Id d); AErr (Remote e)]))
    | None => ret None
    end
  else ret None.

(** The [node_pools] block of [Update]; [Some] is an early return. *)
Definition updateNodePools (d : ResourceData) : M (option Diagnostics) :=
  if HasChangeNodePools "node_pools" d then
    let (oldNP, newNP) := GetChangeNodePools "node_pools" d in
    match newNP, oldNP with
    | n :: _, _ :: _ =>
      let req :=
        {| NodePoolReqUpdate_NodeQuantity := pool_node_quantity n;
           NodePoolReqUpdate_Tag := "";
           NodePoolReqUpdate_AutoScaler := BoolToBoolPtr (pool_auto_scaler n);
           NodePoolReqUpdate_MinNodes := pool_min_nodes n;
           NodePoolReqUpdate_MaxNodes := pool_max_nodes n |} in
      do r <- UpdateNodePool (Id d) (pool_id n) req;
      match r with
      | inr e =>
        ret (Some (diag.Errorf "error updating VKE node pool %v : %v"
                     [AStr (Id d); AErr (Remote e)]))
      | inl _ => ret None
      end
    | [], n :: _ =>
      do e <- DeleteNodePool (Id d) (pool_id n);
      match e with
      | Some e =>
        ret (Some (diag.Errorf "error deleting VKE node pool %v : %v"
                     [AStr (Id d); AErr (Remote e)]))
      | None => ret None
      end
    | n :: _, [] =>
      let req :=
        {| NodePoolReq_NodeQuantity := pool_node_quantity n;
           NodePoolReq_Label := pool_label n;
           NodePoolReq_Plan := pool_plan n;
           NodePoolReq_Tag := tfVKEDefault;
           NodePoolReq_AutoScaler := None;
           NodePoolReq_MinNodes := 0;
           NodePoolReq_MaxNodes := 0 |} in
      do r <- CreateNodePool (Id d) req;
      match r with
      | inr e =>
        ret (Some (diag.Errorf "error creating VKE node pool %v : %v"
                     [AStr (Id d); AErr (Remote e)]))
      | inl _ => ret None
      end
    | [], [] => ret None
    end
  else ret None.

Definition resourceVultrKubernetesUpdate (d : ResourceData)
  : M (Diagnostics * ResourceData) :=
  do r1 <- updateLabel d;
  match r1 with
  | Some ds => ret (ds, d)
  | None =>
    do r2 <- updateNodePools d;
    match r2 with
    | Some ds => ret (ds, d)
    | None => resourceVultrKubernetesRead d
    end
  end.


End Provider.

(** ** The polling loop *)

(** Modelled from the spec: the classification of a fetch error as
    "not found" (sections 4.1 and 7).  Of the errors of this file only
    [NotFoundError] carries it; an error built by [fmt.Errorf], as the
    refresh function of the source builds, or returned by the API
    client carries none and is a transport error. *)
Definition isNotFound (e : error) : bool :=
  match e with
  | NotFoundError => true
  | _ => false
  end.

Section Poller.

Variable E : Env.

(** The upper bound of the backoff ([maxInterval] of the specification);
    the source sets no such field. *)
Variable maxInterval : Duration.

(** The backoff after one more tick: doubled, up to [maxInterval]. *)
Definition nextBackoff (backoff : Duration) : Duration :=
  Z.min (2 * backoff) maxInterval.

(** Modelled from the spec: the polling loop of
    [StateChangeConf.WaitForStateContext], which belongs to the plugin SDK
    and is not under src/.  It follows section 4.1 of the specification
    tick by tick: cancellation and the deadline are looked at before each
    fetch, and cancellation again before each sleep; a fetch that fails
    with an error classified as not found, or that returns no error and
    no payload, is a not-found observation and uses up one unit of
    [budget]; a fetch that fails with any other error ends the wait with
    that error; a label in [Target] is success, a label in [Pending]
    sleeps for the current backoff and goes on, any other label is an
    unexpected state.  [fuel] bounds the number of ticks of the model;
    [None] means the model ran out of it. *)
Fixpoint poll (fuel : nat) (conf : StateChangeConf) (backoff : Duration)
    (budget : nat) (h : History) : option WaitResult * History :=
  match fuel with
  | O => (None, h)
  | S fuel' =>
    if cancelled E h then (Some (None, Some ContextCanceled), h)
    else if expired E h (Timeout conf) then (Some (None, Some TimeoutError), h)
    else
      let (obs, h1) := Refresh conf h in
      let notFound :=
        match budget with
        | O => (Some (None, Some NotFoundError), h1)
        | S budget' =>
          if cancelled E h1 then (Some (None, Some ContextCanceled), h1)
          else poll fuel' conf (nextBackoff backoff) budget'
                    (h1 ++ [Sleep backoff])
        end in
      match err obs with
      | Some e =>
        if isNotFound e then notFound else (Some (None, Some e), h1)
      | None =>
        match raw obs with
        | None => notFound
        | Some _ =>
          if inStates (state obs) (Target conf)
          then (Some (raw obs, None), h1)
          else if inStates (state obs) (Pending conf)
          then
            if cancelled E h1 then (Some (None, Some ContextCanceled), h1)
            else poll fuel' conf (nextBackoff backoff) budget
                      (h1 ++ [Sleep backoff])
          else (Some (None, Some (UnexpectedStateError (state obs))), h1)
        end
      end
  end.

(** Modelled from the spec: [await] of section 4.1, the reading of
    [StateChangeConf.WaitForStateContext] of the plugin SDK (not under
    src/): the loop starts with the backoff at the minimum interval and
    the full not-found budget. *)
Definition await (fuel : nat) (conf : StateChangeConf) : M (option WaitResult) :=
  poll fuel conf (MinTimeout conf) (NotFoundChecks conf).

End Poller.

(** ** Observing a run *)

(** The number of [GetCluster] calls in a history: the fetches. *)
Fixpoint polls (h : History) : nat :=
  match h with
  | [] => O
  | CallGetCluster _ :: t => S (polls t)
  | _ :: t => polls t
  end.

(** The calls of [n] ticks that go on polling: each is one fetch [c]
    followed by one sleep of the current backoff. *)
Fixpoint ticks (maxInterval : Duration) (c : Call) (backoff : Duration)
    (n : nat) : list Call :=
  match n with
  | O => []
  | S n' =>
    c :: Sleep backoff :: ticks maxInterval c (nextBackoff maxInterval backoff) n'
  end.

(** From [h] on the context is not cancelled and the timeout [t] does not
    expire. *)
Definition quiet (E : Env) (h : History) (t : Duration) : Prop :=
  forall l, cancelled E (h ++ l) = false /\ expired E (h ++ l) t = false.

(** From [h] on, the [k]-th [GetCluster] call for [id] is answered by the
    [k]-th entry of [script]. *)
Definition answers (E : Env) (h : History) (id : string)
    (script : list (Cluster + ApiError)) : Prop :=
  forall l r, nth_error script (polls l) = Some r -> getCluster E (h ++ l) id = r.




(** [sub] occurs in [s]. *)
Definition occursIn (sub s : string) : Prop :=
  exists a b : string, s = a +:+ sub +:+ b.

(** A request that creates node pools carries the default tag on each. *)
Definition defaultTagged (c : Call) : Prop :=
  match c with
  | CallCreateCluster req =>
    Forall (fun r => NodePoolReq_Tag r = tfVKEDefault) (ClusterReq_NodePools req)
  | CallCreateNodePool _ req => NodePoolReq_Tag req = tfVKEDefault
  | _ => True
  end.

(** Closes a goal [exists l, snd (_, h ++ ...) = h ++ l /\ Forall _ l]
    whose calls are all in sight. *)
Ltac suffix_tagged :=
  eexists; split;
  [ cbn [snd]; rewrite <- ?app_assoc; reflexivity
  | repeat constructor ].

(** ** Example environments *)

Definition mkPool (id tag : string) (quantity : Z) : NodePool :=
  {| NodePool_ID := id; NodePool_DateCreated := "2022-01-01";
     NodePool_DateUpdated := "2022-01-02"; NodePool_Label := id;
     NodePool_Plan := "vc2-1c-2gb"; NodePool_Status := "active";
     NodePool_NodeQuantity := quantity; NodePool_Tag := tag;
     NodePool_Nodes :=
       [ {| Node_ID := "n1"; Node_DateCreated := "2022-01-01";
            Node_Label := "node-1"; Node_Status := "active" |} ];
     NodePool_AutoScaler := false; NodePool_MinNodes := 1;
     NodePool_MaxNodes := 1 |}.

Definition mkCluster (id status : string) (pools : list NodePool) : Cluster :=
  {| Cluster_ID := id; Cluster_Label := "vke"; Cluster_Region := "ewr";
     Cluster_Version := "v1.23"; Cluster_Status := status;
     Cluster_IP := "10.0.0.1"; Cluster_Endpoint := "vke.example";
     Cluster_ClusterSubnet := "10.244.0.0/16";
     Cluster_ServiceSubnet := "10.96.0.0/12";
     Cluster_DateCreated := "2022-01-01"; Cluster_NodePools := pools |}.

(** An API that creates [created] and answers the [k]-th [GetCluster]
    call with the [k]-th entry of [gets] ([fallback] once they are used
    up).  The context is never cancelled; [deadline k] tells whether the
    timeout has expired once [k] reads have been made. *)
Definition scripted (created : Cluster + ApiError)
    (gets : list (Cluster + ApiError)) (fallback : Cluster + ApiError)
    (deadline : nat -> bool) : Env :=
  {| createCluster := fun _ _ => created;
     getCluster := fun h _ =>
       match nth_error gets (polls h) with Some r => r | None => fallback end;
     getKubeConfig := fun _ _ => inl {| KubeConfig_KubeConfig := "a3ViZQ==" |};
     updateCluster := fun _ _ _ => None;
     updateNodePool := fun _ _ _ _ => inr {| Error := "not scripted" |};
     deleteNodePool := fun _ _ _ => None;
     createNodePool := fun _ _ _ => inr {| Error := "not scripted" |};
     deleteCluster := fun _ _ => None;
     cancelled := fun _ => false;
     expired := fun h _ => deadline (polls h);
     setError := fun _ _ => None |}.

Definition never : nat -> bool := fun _ => false.

Definition emptyData (id : string) : ResourceData :=
  {| Id := id; attrs := ∅; prior := ∅ |}.

Definition pendingCluster : Cluster := mkCluster "vke-1" "pending" [].
Definition activeCluster : Cluster := mkCluster "vke-1" "active" [].
Definition failedCluster : Cluster := mkCluster "vke-1" "failed" [].

Definition gone : ApiError := {| Error := "Invalid resource ID" |}.

Definition unauthorized : ApiError :=
  {| Error := "Unauthorized: Invalid resource ID in token" |}.

Definition unavailable : ApiError := {| Error := "503 Service Unavailable" |}.

(** The scenario of the specification: pending, pending, active, and
    active from then on. *)
Definition convergingEnv : Env :=
  scripted (inl pendingCluster)
    [inl pendingCluster; inl pendingCluster; inl activeCluster]
    (inl activeCluster) never.

(** Every read finds the cluster active. *)
Definition steadyEnv : Env :=
  scripted (inl pendingCluster) [] (inl activeCluster) never.

(** The first read finds the cluster in a state outside the alphabet. *)
Definition failingEnv : Env :=
  scripted (inl pendingCluster) [inl failedCluster] (inr gone) never.

(** The cluster stays pending and the timeout expires after two reads. *)
Definition slowEnv : Env :=
  scripted (inl pendingCluster) [] (inl pendingCluster) (Nat.leb 2).

(** Every read fails: the cluster is not there. *)
Definition goneEnv : Env :=
  scripted (inl pendingCluster) [] (inr gone) never.






(** A cluster with three pools, the second and the third tagged. *)
Definition pooledCluster : Cluster :=
  mkCluster "vke-1" "active"
    [mkPool "np-other" "other" 1; mkPool "np-a" "tf-vke-default" 2;
     mkPool "np-b" "tf-vke-default" 3].

Definition pooledEnv : Env :=
  scripted (inl pendingCluster) [] (inl pooledCluster) never.

(** Resource data whose configuration asks for one node pool where the
    prior state has none. *)
Definition poolAttrs : NodePoolAttrs :=
  {| pool_label := "workers"; pool_plan := "vc2-1c-2gb"; pool_node_quantity := 3;
     pool_id := ""; pool_date_created := ""; pool_date_updated := "";
     pool_status := ""; pool_tag := ""; pool_nodes := [];
     pool_auto_scaler := false; pool_min_nodes := 1; pool_max_nodes := 1 |}.

Definition newPoolData : ResourceData :=
  {| Id := "vke-1";
     attrs := {[ "node_pools" := VNodePools [poolAttrs] ]};
     prior := ∅ |}.

(** ** The schema of the resource *)

Inductive ValueType := TypeString | TypeList.

(** [schema.Schema], with the fields the source sets; an unset flag is
    [false], an unset [MaxItems] is 0.  The [Elem] of [node_pools] is
    [nodePoolSchema(false)], which is not under src/ and is left out. *)
Record Schema := {
  Schema_Type : ValueType;
  Schema_Required : bool;
  Schema_Optional : bool;
  Schema_Computed : bool;
  Schema_ForceNew : bool;
  Schema_MaxItems : Z;
  Schema_Description : string
}.

Definition computedString (description : string) : Schema :=
  {| Schema_Type := TypeString; Schema_Required := false;
     Schema_Optional := false; Schema_Computed := true;
     Schema_ForceNew := false; Schema_MaxItems := 0;
     Schema_Description := description |}.

(** The [Schema] map of [resourceVultrKubernetes]. *)
Definition resourceVultrKubernetesSchema : list (string * Schema) :=
  [ ("label",
     {| Schema_Type := TypeString; Schema_Required := true;
        Schema_Optional := false; Schema_Computed := false;
        Schema_ForceNew := false; Schema_MaxItems := 0;
        Schema_Description := "" |});
    ("region",
     {| Schema_Type := TypeString; Schema_Required := true;
        Schema_Optional := false; Schema_Computed := false;
        Schema_ForceNew := true; Schema_MaxItems := 0;
        Schema_Description := "" |});
    ("version",
     {| Schema_Type := TypeString; Schema_Required := true;
        Schema_Optional := false; Schema_Computed := false;
        Schema_ForceNew := true; Schema_MaxItems := 0;
        Schema_Description := "" |});
    ("node_pools",
     {| Schema_Type := TypeList; Schema_Required := false;
        Schema_Optional := true; Schema_Computed := false;
        Schema_ForceNew := false; Schema_MaxItems := 1;
        Schema_Description := "" |});
    ("date_created", computedString "");
    ("cluster_subnet", computedString "");
    ("service_subnet", computedString "");
    ("ip", computedString "");
    ("endpoint", computedString "");
    ("status", computedString "");
    ("kube_config", computedString "Base64 encoded KubeConfig") ].

Definition schemaOf (key : string) : option Schema :=
  snd <$> List.find (fun kv => String.eqb key (fst kv)) resourceVultrKubernetesSchema.

(** ** Observing the operations *)

(** The keys [Read] may write. *)
Definition readKeys : list string :=
  ["node_pools"; "date_created"; "cluster_subnet"; "service_subnet"; "ip";
   "endpoint"; "status"; "kube_config"].

(** The keys the request of [Create] is built from. *)
Definition createKeys : list string := ["label"; "region"; "version"; "node_pools"].

(** The reply of [GetCluster] at [h] on which [Read] takes the cluster
    [id] to be gone: an error whose text has "Invalid resource ID" and
    not "Unauthorized" in it. *)
Definition clusterGone (E : Env) (h : History) (id : string) : Prop :=
  exists e, getCluster E h id = inr e /\
            occursIn "Invalid resource ID" (Error e) /\
            ~ occursIn "Unauthorized" (Error e).

(** Calls that change something at the remote end. *)
Definition isMutation (c : Call) : bool :=
  match c with
  | CallGetCluster _ | CallGetKubeConfig _ | Sleep _ => false
  | _ => true
  end.

Definition isNodePoolCall (c : Call) : bool :=
  match c with
  | CallUpdateNodePool _ _ _ | CallDeleteNodePool _ _ | CallCreateNodePool _ _ => true
  | _ => false
  end.

Definition isClusterLifecycle (c : Call) : bool :=
  match c with
  | CallCreateCluster _ | CallDeleteCluster _ => true
  | _ => false
  end.

Definition count (f : Call -> bool) (h : History) : nat :=
  length (List.filter f h).

(** A run of [d.Set] calls whose errors are dropped. *)
Definition setAll (E : Env) (l : list (string * AttrValue)) (d : ResourceData)
  : ResourceData :=
  fold_left (fun d kv => fst (SetAttr E (fst kv) (snd kv) d)) l d.

(** The value the last accepted write of [l] leaves under [key]. *)
Fixpoint lastWrite (E : Env) (l : list (string * AttrValue)) (key : string)
  : option AttrValue :=
  match l with
  | [] => None
  | (k, v) :: rest =>
    match lastWrite E rest key with
    | Some w => Some w
    | None =>
      match setError E k v with
      | Some _ => None
      | None => if String.eqb key k then Some v else None
      end
    end
  end.

(** The string attributes [Read] writes from a cluster, in order. *)
Definition clusterWrites (vke : Cluster) : list (string * AttrValue) :=
  [ ("date_created", VString (Cluster_DateCreated vke));
    ("cluster_subnet", VString (Cluster_ClusterSubnet vke));
    ("service_subnet", VString (Cluster_ServiceSubnet vke));
    ("ip", VString (Cluster_IP vke));
    ("endpoint", VString (Cluster_Endpoint vke));
    ("status", VString (Cluster_Status vke)) ].

(** The write [Read] makes for the default node pool: that of the first
    pool that carries the tag, if any. *)
Definition defaultPoolWrite (vke : Cluster) : list (string * AttrValue) :=
  match List.find (fun v => String.eqb tfVKEDefault (NodePool_Tag v))
                  (Cluster_NodePools vke) with
  | Some v => [("node_pools", VNodePools (flattenNodePool v))]
  | None => []
  end.

(** The error of that write, if the schema rejects it. *)
Definition rejectedPool (E : Env) (vke : Cluster) : option error :=
  match defaultPoolWrite vke with
  | (k, v) :: _ => setError E k v
  | [] => None
  end.

(** What [Read] returns once [GetCluster] has answered [vke] and
    [GetKubeConfig], if it is reached, [kc]: a statement of the result
    by the writes made, against which [Read] is proved. *)
Definition readOutcome (E : Env) (vke : Cluster) (kc : KubeConfig + ApiError)
    (d : ResourceData) : Diagnostics * ResourceData :=
  match rejectedPool E vke with
  | Some e => (diag.Errorf "error setting `node_pool`: %v" [AErr e], d)
  | None =>
    match kc with
    | inr e =>
      (diag.Errorf "could not get kubeconfig : %v" [AErr (Remote e)],
       setAll E (defaultPoolWrite vke ++ clusterWrites vke) d)
    | inl config =>
      ([], setAll E (defaultPoolWrite vke ++ clusterWrites vke ++
                     [("kube_config", VString (KubeConfig_KubeConfig config))]) d)
    end
  end.

(** The configuration of a node pool as [flattenNodePool] and
    [generateNodePool] both see it. *)
Definition samePoolSettings (np : NodePool) (r : NodePoolReq) : Prop :=
  NodePoolReq_NodeQuantity r = NodePool_NodeQuantity np /\
  NodePoolReq_Label r = NodePool_Label np /\
  NodePoolReq_Plan r = NodePool_Plan np /\
  NodePoolReq_AutoScaler r = Some (NodePool_AutoScaler np) /\
  NodePoolReq_MinNodes r = NodePool_MinNodes np /\
  NodePoolReq_MaxNodes r = NodePool_MaxNodes np.

(** A stand-in for the wait of the SDK that fetches once and returns
    what it fetched. *)
Definition fetchOnce (conf : StateChangeConf) : M (option WaitResult) :=
  fun h => let (obs, h1) := Refresh conf h in (Some (raw obs, err obs), h1).

(** A wait that does not return. *)
Definition neverReturns (conf : StateChangeConf) : M (option WaitResult) :=
  fun h => (None, h).

(** Resource data with a changed label, and with a node pool both in the
    configuration and in the prior state. *)
Definition relabelledData : ResourceData :=
  {| Id := "vke-1";
     attrs := {[ "label" := VString "new" ]};
     prior := {[ "label" := VString "old" ]} |}.

Definition resizedData : ResourceData :=
  {| Id := "vke-1";
     attrs := {[ "node_pools" := VNodePools
                  [ {| pool_label := "workers"; pool_plan := "vc2-1c-2gb";
                       pool_node_quantity := 5; pool_id := "np-a";
                       pool_date_created := ""; pool_date_updated := "";
                       pool_status := ""; pool_tag := "tf-vke-default";
                       pool_nodes := []; pool_auto_scaler := true;
                       pool_min_nodes := 2; pool_max_nodes := 6 |} ] ]};
     prior := {[ "node_pools" := VNodePools
                  [ {| pool_label := "workers"; pool_plan := "vc2-1c-2gb";
                       pool_node_quantity := 3; pool_id := "np-old";
                       pool_date_created := ""; pool_date_updated := "";
                       pool_status := ""; pool_tag := "tf-vke-default";
                       pool_nodes := []; pool_auto_scaler := false;
                       pool_min_nodes := 1; pool_max_nodes := 1 |} ] ]} |}.

Definition removedPoolData : ResourceData :=
  {| Id := "vke-1"; attrs := ∅; prior := attrs resizedData |}.

(** An API whose [UpdateCluster] fails. *)
Definition refusingEnv : Env :=
  {| createCluster := fun _ _ => inr unavailable;
     getCluster := fun _ _ => inl activeCluster;
     getKubeConfig := fun _ _ => inr unavailable;
     updateCluster := fun _ _ _ => Some unavailable;
     updateNodePool := fun _ _ _ _ => inl (mkPool "np-a" "tf-vke-default" 5);
     deleteNodePool := fun _ _ _ => None;
     createNodePool := fun _ _ _ => inl (mkPool "np-a" "tf-vke-default" 3);
     deleteCluster := fun _ _ => Some gone;
     cancelled := fun _ => false;
     expired := fun _ _ => false;
     setError := fun _ _ => None |}.

(** An API for which the cluster is not there any more. *)
Definition vanishedEnv : Env :=
  {| createCluster := fun _ _ => inr unavailable;
     getCluster := fun _ _ => inr gone;
     getKubeConfig := fun _ _ => inr gone;
     updateCluster := fun _ _ _ => Some gone;
     updateNodePool := fun _ _ _ _ => inr gone;
     deleteNodePool := fun _ _ _ => Some gone;
     createNodePool := fun _ _ _ => inr gone;
     deleteCluster := fun _ _ => Some gone;
     cancelled := fun _ => false;
     expired := fun _ _ => false;
     setError := fun _ _ => None |}.

(** ** Lemmas on histories and on one tick *)

Lemma polls_app (h1 h2 : History) :
  polls (h1 ++ h2) = (polls h1 + polls h2)%nat.
Proof.
  induction h1 as [|c h1 IH]; simpl; [reflexivity|].
  destruct c; simpl; rewrite IH; reflexivity.
Qed.

Lemma polls_ticks (maxInterval : Duration) (id : string) (n : nat) :
  forall b, polls (ticks maxInterval (CallGetCluster id) b n) = n.
Proof.
  induction n as [|n IH]; intros b; simpl; [reflexivity|].
  rewrite IH. reflexivity.
Qed.

Lemma quiet_here (E : Env) (h : History) (t : Duration) :
  quiet E h t -> cancelled E h = false /\ expired E h t = false.
Proof.
  intros Hq. specialize (Hq []). rewrite app_nil_r in Hq. exact Hq.
Qed.

Lemma quiet_app (E : Env) (h l : History) (t : Duration) :
  quiet E h t -> quiet E (h ++ l) t.
Proof.
  intros Hq l'. rewrite <- app_assoc. apply Hq.
Qed.

Lemma answers_head (E : Env) (h : History) (id : string)
    (r : Cluster + ApiError) (script : list (Cluster + ApiError)) :
  answers E h id (r :: script) -> getCluster E h id = r.
Proof.
  intros Ha. specialize (Ha [] r). rewrite app_nil_r in Ha.
  apply Ha. reflexivity.
Qed.

Lemma answers_tail (E : Env) (h l : History) (id : string)
    (r : Cluster + ApiError) (script : list (Cluster + ApiError)) :
  polls l = 1%nat ->
  answers E h id (r :: script) -> answers E (h ++ l) id script.
Proof.
  intros Hl Ha l' r' Hr. rewrite <- app_assoc. apply Ha.
  rewrite polls_app, Hl. exact Hr.
Qed.

Lemma inStates_In (label : string) (states : list string) :
  inStates label states = true <-> In label states.
Proof.
  unfold inStates. rewrite existsb_exists. split.
  - intros [x [Hin Heq]]. apply String.eqb_eq in Heq. subst. exact Hin.
  - intros Hin. exists label. split; [exact Hin | apply String.eqb_refl].
Qed.

Lemma inStates_not_In (label : string) (states : list string) :
  inStates label states = false <-> ~ In label states.
Proof.
  rewrite <- inStates_In. destruct (inStates label states); split; intros H;
    try reflexivity; try discriminate; try (intros H'; discriminate).
  exfalso. apply H. reflexivity.
Qed.

(** One tick of the loop over the refresh function of the source, when
    neither cancellation nor the deadline stops it at its start. *)
Lemma poll_tick (E : Env) (maxInterval : Duration) (d : ResourceData)
    (attr : string) (conf : StateChangeConf) (fuel : nat) (b : Duration)
    (k : nat) (h : History) :
  Refresh conf = newVKEStateRefresh E d attr ->
  cancelled E h = false ->
  expired E h (Timeout conf) = false ->
  poll E maxInterval (S fuel) conf b k h =
    let h1 := h ++ [CallGetCluster (Id d)] in
    match getCluster E h (Id d) with
    | inr _ =>
      (Some (None, Some (Errorf "error retrieving kubernetes cluster %s " [Id d])),
       h1)
    | inl vke =>
      if String.eqb attr "status" then
        if inStates (Cluster_Status vke) (Target conf)
        then (Some (Some vke, None), h1)
        else if inStates (Cluster_Status vke) (Pending conf)
        then
          if cancelled E h1 then (Some (None, Some ContextCanceled), h1)
          else poll E maxInterval fuel conf (nextBackoff maxInterval b) k
                    (h1 ++ [Sleep b])
        else (Some (None, Some (UnexpectedStateError (Cluster_Status vke))), h1)
      else
        match k with
        | O => (Some (None, Some NotFoundError), h1)
        | S k' =>
          if cancelled E h1 then (Some (None, Some ContextCanceled), h1)
          else poll E maxInterval fuel conf (nextBackoff maxInterval b) k'
                    (h1 ++ [Sleep b])
        end
    end.
Proof.
  intros Href Hc He. simpl. rewrite Hc, He, Href.
  unfold newVKEStateRefresh, bind, GetCluster, call, ret.
  destruct (getCluster E h (Id d)) as [vke|e]; [|reflexivity].
  destruct (String.eqb attr "status"); reflexivity.
Qed.

(** ** Convergence *)

(** A run of pending observations followed by a target observation, for
    any configuration that polls with the refresh function of the
    source on [status]. *)
Lemma poll_converges (E : Env) (maxInterval : Duration) (d : ResourceData)
    (conf : StateChangeConf) (last : Cluster) (pre : list Cluster) :
  Refresh conf = newVKEStateRefresh E d "status" ->
  Forall (fun c => inStates (Cluster_Status c) (Target conf) = false /\
                   inStates (Cluster_Status c) (Pending conf) = true) pre ->
  inStates (Cluster_Status last) (Target conf) = true ->
  forall (fuel : nat) (b : Duration) (k : nat) (h : History),
    answers E h (Id d) (map inl (pre ++ [last])) ->
    quiet E h (Timeout conf) ->
    (length pre < fuel)%nat ->
    poll E maxInterval fuel conf b k h =
      (Some (Some last, None),
       h ++ ticks maxInterval (CallGetCluster (Id d)) b (length pre)
         ++ [CallGetCluster (Id d)]).
Proof.
  intros Href Hpre Hlast.
  induction Hpre as [|c pre [Hc1 Hc2] Hpre IH]; intros fuel b k h Ha Hq Hf.
  - destruct fuel as [|fuel]; [simpl in Hf; lia|].
    destruct (quiet_here _ _ _ Hq) as [Hcan Hexp].
    rewrite (poll_tick E maxInterval d "status" conf fuel b k h Href Hcan Hexp).
    simpl in Ha. rewrite (answers_head _ _ _ _ _ Ha).
    simpl. rewrite Hlast. reflexivity.
  - destruct fuel as [|fuel]; [simpl in Hf; lia|].
    destruct (quiet_here _ _ _ Hq) as [Hcan Hexp].
    rewrite (poll_tick E maxInterval d "status" conf fuel b k h Href Hcan Hexp).
    simpl in Ha. rewrite (answers_head _ _ _ _ _ Ha).
    cbn zeta. rewrite String.eqb_refl, Hc1, Hc2.
    destruct (Hq [CallGetCluster (Id d)]) as [Hcan1 _]. rewrite Hcan1.
    rewrite IH.
    + simpl. rewrite <- !app_assoc. reflexivity.
    + rewrite <- app_assoc. eapply answers_tail; [|exact Ha]. reflexivity.
    + rewrite <- app_assoc. apply quiet_app. exact Hq.
    + simpl in Hf. lia.
Qed.

(** C1.  Whenever the fetches of [waitForVKEAvailable] observe labels of
    the pending list and then the target label, the wait returns that
    last observation without error; its calls are one [GetCluster] per
    tick, each but the last followed by one sleep, so the number of
    fetches is the length of the sequence. *)
Theorem waitForVKEAvailable_converges
    (E : Env) (maxInterval : Duration) (d : ResourceData) (target : string)
    (pending : list string) (pre : list Cluster) (last : Cluster)
    (h : History) (fuel : nat) :
  ~ In target pending ->
  Forall (fun c => In (Cluster_Status c) pending) pre ->
  Cluster_Status last = target ->
  answers E h (Id d) (map inl (pre ++ [last])) ->
  quiet E h (60 * time.Minute) ->
  (length pre < fuel)%nat ->
  let run := waitForVKEAvailable E (await E maxInterval fuel) d target pending
               "status" h in
  fst run = Some (Some last, None) /\
  snd run = h ++ ticks maxInterval (CallGetCluster (Id d)) (5 * time.Second)
                   (length pre)
              ++ [CallGetCluster (Id d)] /\
  polls (snd run) = (polls h + length (pre ++ [last]))%nat.
Proof.
  intros Hinv Hpre Hlast Ha Hq Hf run.
  assert (Hrun : run =
    (Some (Some last, None),
     h ++ ticks maxInterval (CallGetCluster (Id d)) (5 * time.Second)
            (length pre) ++ [CallGetCluster (Id d)])).
  { unfold run, waitForVKEAvailable, await.
    apply poll_converges; try assumption; try reflexivity.
    - apply (Forall_impl (fun c => In (Cluster_Status c) pending));
        [exact Hpre|]. intros c Hc. split.
      + apply inStates_not_In. simpl. intros [Heq|[]].
        apply Hinv. rewrite Heq. exact Hc.
      + apply inStates_In. exact Hc.
    - apply inStates_In. simpl. left. symmetry. exact Hlast. }
  rewrite Hrun. simpl. repeat split.
  rewrite !polls_app, polls_ticks, length_app. simpl. lia.
Qed.

(** ** Failures of the wait *)

(** A fetch of the refresh function of the source that fails ends the
    wait at once, with the error of the refresh function: that error is
    built by [fmt.Errorf] and carries no not-found classification, so
    the not-found budget plays no part. *)
Lemma poll_fetch_error (E : Env) (maxInterval : Duration) (d : ResourceData)
    (attr : string) (conf : StateChangeConf) (e : ApiError) (fuel : nat)
    (b : Duration) (k : nat) (h : History) :
  Refresh conf = newVKEStateRefresh E d attr ->
  cancelled E h = false ->
  expired E h (Timeout conf) = false ->
  getCluster E h (Id d) = inr e ->
  poll E maxInterval (S fuel) conf b k h =
    (Some (None, Some (Errorf "error retrieving kubernetes cluster %s " [Id d])),
     h ++ [CallGetCluster (Id d)]).
Proof.
  intros Href Hc He Hg.
  rewrite (poll_tick E maxInterval d attr conf fuel b k h Href Hc He), Hg.
  reflexivity.
Qed.

(** C3.  When the fetch of [waitForVKEAvailable] observes a cluster whose
    label is neither the target nor in the pending list, the wait fails
    with the unexpected-state error carrying that label, after this one
    fetch. *)
Theorem waitForVKEAvailable_unexpected_state
    (E : Env) (maxInterval : Duration) (d : ResourceData) (target : string)
    (pending : list string) (vke : Cluster) (h : History) (fuel : nat) :
  getCluster E h (Id d) = inl vke ->
  Cluster_Status vke <> target ->
  ~ In (Cluster_Status vke) pending ->
  cancelled E h = false ->
  expired E h (60 * time.Minute) = false ->
  (0 < fuel)%nat ->
  let run := waitForVKEAvailable E (await E maxInterval fuel) d target pending
               "status" h in
  fst run = Some (None, Some (UnexpectedStateError (Cluster_Status vke))) /\
  snd run = h ++ [CallGetCluster (Id d)] /\
  polls (snd run) = (polls h + 1)%nat.
Proof.
  intros Hg Ht Hp Hc He Hf run.
  destruct fuel as [|fuel]; [lia|].
  assert (Hrun : run =
    (Some (None, Some (UnexpectedStateError (Cluster_Status vke))),
     h ++ [CallGetCluster (Id d)])).
  { unfold run, waitForVKEAvailable, await.
    erewrite poll_tick; [|reflexivity|exact Hc|exact He].
    rewrite Hg. cbn zeta. rewrite String.eqb_refl.
    cbn [Target Pending].
    replace (inStates (Cluster_Status vke) [target]) with false.
    - apply inStates_not_In in Hp. rewrite Hp. reflexivity.
    - symmetry. apply inStates_not_In. intros [Heq|[]]. congruence. }
  rewrite Hrun. simpl. repeat split.
  rewrite polls_app. reflexivity.
Qed.

(** ** The deadline and cancellation *)













(** ** [Read]: classification of the errors of [GetCluster] *)

Lemma prefix_spec (p : string) :
  forall s : string, String.prefix p s = true <-> exists b, s = p +:+ b.
Proof.
  induction p as [|c p IH]; intros s; destruct s as [|c' s]; simpl.
  - split; [intros _; exists ""; reflexivity | reflexivity].
  - split; [intros _; exists (String c' s); reflexivity | reflexivity].
  - split; [discriminate | intros [b Hb]; discriminate].
  - destruct (Ascii.ascii_dec c c') as [->|Hne].
    + rewrite IH. split; intros [b Hb]; exists b.
      * rewrite Hb. reflexivity.
      * injection Hb as Hb. exact Hb.
    + split; [discriminate|]. intros [b Hb]. injection Hb as Hc _.
      symmetry in Hc. contradiction.
Qed.

(** [strings.Contains] decides the substring relation. *)
Lemma Contains_spec (sub : string) :
  forall s : string, strings.Contains s sub = true <-> occursIn sub s.
Proof.
  induction s as [|c s IH]; cbn [strings.Contains];
    rewrite orb_true_iff, prefix_spec.
  - split.
    + intros [[b Hb]|Hf]; [|discriminate]. exists "", b. exact Hb.
    + intros [a [b Hab]]. left. destruct a as [|c a]; [|discriminate].
      exists b. exact Hab.
  - rewrite IH. split.
    + intros [[b Hb]|[a [b Hab]]].
      * exists "", b. exact Hb.
      * exists (String c a), b. simpl. rewrite Hab. reflexivity.
    + intros [a [b Hab]]. destruct a as [|c' a].
      * left. exists b. exact Hab.
      * right. simpl in Hab. injection Hab as _ Hab. exists a, b. exact Hab.
Qed.

Lemma Contains_false (sub s : string) :
  strings.Contains s sub = false <-> ~ occursIn sub s.
Proof.
  rewrite <- Contains_spec. destruct (strings.Contains s sub); split;
    intros H; try reflexivity; try discriminate.
  exfalso. apply H. reflexivity.
Qed.

(** C7.  When [GetCluster] fails in [Read], the text of the error decides
    by substring: with "Unauthorized" in it, [Read] returns the API
    authorization error; otherwise, with "Invalid resource ID" in it,
    [Read] clears the resource ID and returns no diagnostic; otherwise
    [Read] returns the generic error.  No other call is made. *)
Theorem resourceVultrKubernetesRead_error_classes
    (E : Env) (d : ResourceData) (e : ApiError) (h : History) :
  getCluster E h (Id d) = inr e ->
  let run := resourceVultrKubernetesRead E d h in
  snd run = h ++ [CallGetCluster (Id d)] /\
  (occursIn "Unauthorized" (Error e) ->
     fst run = (diag.Errorf "API authorization error: %v" [AErr (Remote e)], d)) /\
  (~ occursIn "Unauthorized" (Error e) ->
   occursIn "Invalid resource ID" (Error e) ->
     fst run = ([], SetId "" d) /\ Id (snd (fst run)) = "" /\
     diag.HasError (fst (fst run)) = false) /\
  (~ occursIn "Unauthorized" (Error e) ->
   ~ occursIn "Invalid resource ID" (Error e) ->
     fst run = (diag.Errorf "error getting cluster (%s): %v"
                  [AStr (Id d); AErr (Remote e)], d)).
Proof.
  intros Hg run.
  assert (Hrun : run =
    (if strings.Contains (Error e) "Unauthorized"
     then (diag.Errorf "API authorization error: %v" [AErr (Remote e)], d)
     else if strings.Contains (Error e) "Invalid resource ID"
     then ([], SetId "" d)
     else (diag.Errorf "error getting cluster (%s): %v"
             [AStr (Id d); AErr (Remote e)], d),
     h ++ [CallGetCluster (Id d)])).
  { unfold run, resourceVultrKubernetesRead, bind, GetCluster, call, ret.
    rewrite Hg.
    destruct (strings.Contains (Error e) "Unauthorized"); [reflexivity|].
    destruct (strings.Contains (Error e) "Invalid resource ID"); reflexivity. }
  rewrite Hrun. cbn [fst snd]. split; [reflexivity|]. split; [|split].
  - intros Hu. apply Contains_spec in Hu. rewrite Hu. reflexivity.
  - intros Hu Hi. apply Contains_false in Hu. apply Contains_spec in Hi.
    rewrite Hu, Hi. repeat split.
  - intros Hu Hi. apply Contains_false in Hu. apply Contains_false in Hi.
    rewrite Hu, Hi. reflexivity.
Qed.

(** ** The calls of the operations *)

Lemma generateNodePool_tagged (pools : list NodePoolAttrs) :
  Forall (fun r => NodePoolReq_Tag r = tfVKEDefault) (generateNodePool pools).
Proof.
  induction pools as [|r pools IH]; simpl; constructor; [reflexivity|exact IH].
Qed.

Lemma createRequest_tagged (d : ResourceData) :
  Forall (fun r => NodePoolReq_Tag r = tfVKEDefault)
         (ClusterReq_NodePools (createRequest d)).
Proof.
  unfold createRequest, GetOkNodePools. simpl.
  destruct (GetNodePools "node_pools" d); [constructor|].
  apply generateNodePool_tagged.
Qed.

Lemma resourceVultrKubernetesRead_calls (E : Env) (d : ResourceData)
    (h : History) :
  exists l,
    snd (resourceVultrKubernetesRead E d h) = h ++ l /\ Forall defaultTagged l.
Proof.
  unfold resourceVultrKubernetesRead, bind, GetCluster, GetKubeConfig, call, ret.
  destruct (getCluster E h (Id d)) as [vke|e].
  - destruct (setDefaultNodePool E (Cluster_NodePools vke) d) as [d1 [e|]];
      [suffix_tagged|].
    match goal with |- context [getKubeConfig E ?h' ?i] =>
      destruct (getKubeConfig E h' i) end; suffix_tagged.
  - destruct (strings.Contains (Error e) "Unauthorized"); [suffix_tagged|].
    destruct (strings.Contains (Error e) "Invalid resource ID"); suffix_tagged.
Qed.

Lemma updateLabel_calls (E : Env) (d : ResourceData) (h : History) :
  exists l, snd (updateLabel E d h) = h ++ l /\ Forall defaultTagged l.
Proof.
  unfold updateLabel, bind, UpdateCluster, call, ret.
  destruct (HasChangeString "label" d);
    [|exists []; split; [symmetry; apply app_nil_r|constructor]].
  match goal with |- context [updateCluster E ?h' ?i ?r] =>
    destruct (updateCluster E h' i r) end; suffix_tagged.
Qed.

Lemma updateNodePools_calls (E : Env) (d : ResourceData) (h : History) :
  exists l, snd (updateNodePools E d h) = h ++ l /\ Forall defaultTagged l.
Proof.
  assert (Hnil : exists l, snd (ret (A := option Diagnostics) None h) = h ++ l /\
                           Forall defaultTagged l).
  { exists []. split; [symmetry; apply app_nil_r|constructor]. }
  unfold updateNodePools, GetChangeNodePools.
  destruct (HasChangeNodePools "node_pools" d); [|exact Hnil].
  destruct (readNodePools (attrs d) "node_pools") as [|n newNP];
    destruct (readNodePools (prior d) "node_pools") as [|o oldNP];
    try exact Hnil;
    unfold bind, UpdateNodePool, DeleteNodePool, CreateNodePool, call, ret.
  - match goal with |- context [deleteNodePool E ?h' ?i ?j] =>
      destruct (deleteNodePool E h' i j) end; suffix_tagged.
  - match goal with |- context [createNodePool E ?h' ?i ?r] =>
      destruct (createNodePool E h' i r) end; suffix_tagged.
  - match goal with |- context [updateNodePool E ?h' ?i ?j ?r] =>
      destruct (updateNodePool E h' i j r) end; suffix_tagged.
Qed.

Lemma resourceVultrKubernetesUpdate_calls (E : Env) (d : ResourceData)
    (h : History) :
  exists l,
    snd (resourceVultrKubernetesUpdate E d h) = h ++ l /\ Forall defaultTagged l.
Proof.
  unfold resourceVultrKubernetesUpdate, bind.
  destruct (updateLabel_calls E d h) as [l1 [Hl1 Ht1]].
  destruct (updateLabel E d h) as [r1 h1]. simpl in Hl1. subst h1.
  destruct r1 as [ds|]; [exists l1; split; [reflexivity|exact Ht1]|].
  destruct (updateNodePools_calls E d (h ++ l1)) as [l2 [Hl2 Ht2]].
  destruct (updateNodePools E d (h ++ l1)) as [r2 h2]. simpl in Hl2. subst h2.
  destruct r2 as [ds|].
  - exists (l1 ++ l2). split; [cbn [snd ret]; rewrite <- app_assoc; reflexivity|].
    apply Forall_app. split; assumption.
  - destruct (resourceVultrKubernetesRead_calls E d ((h ++ l1) ++ l2))
      as [l3 [Hl3 Ht3]].
    exists (l1 ++ l2 ++ l3). split.
    + rewrite Hl3, <- !app_assoc. reflexivity.
    + rewrite !Forall_app. repeat split; assumption.
Qed.

(** ** [Create]: the resource ID and the wait *)

(** C8.  When [CreateCluster] succeeds, [Create] stores the ID of the new
    cluster before it waits: the wait is given the configuration whose
    refresh function works on the resource data with that ID, so that
    every fetch reads that cluster.  When the wait returns an error,
    whatever its kind, [Create] returns an error diagnostic and the
    resource data still carries that ID.  This holds for any function in
    the place of the SDK's [WaitForStateContext]. *)
Theorem resourceVultrKubernetesCreate_wait_failure
    (E : Env) (W : StateChangeConf -> M (option WaitResult))
    (d : ResourceData) (cluster : Cluster) (h : History) :
  createCluster E h (createRequest d) = inl cluster ->
  let d1 := SetId (Cluster_ID cluster) d in
  let h1 := h ++ [CallCreateCluster (createRequest d)] in
  let wait := waitForVKEAvailable E W d1 "active" ["pending"] "status" h1 in
  Id d1 = Cluster_ID cluster /\
  wait = W {| Pending := ["pending"];
              Target := ["active"];
              Refresh := newVKEStateRefresh E d1 "status";
              Timeout := 60 * time.Minute;
              Delay := 10 * time.Second;
              MinTimeout := 5 * time.Second;
              NotFoundChecks := 60 |} h1 /\
  (forall h',
     snd (newVKEStateRefresh E d1 "status" h') =
       h' ++ [CallGetCluster (Cluster_ID cluster)]) /\
  (forall (payload : option Cluster) (e : error),
     fst wait = Some (payload, Some e) ->
     let run := resourceVultrKubernetesCreate E W d h in
     run = (Some (diag.Errorf
                    "error while waiting for kubernetes cluster %v to be completed: %v"
                    [AStr (Cluster_ID cluster); AErr e], d1),
            snd wait) /\
     (forall ds d', fst run = Some (ds, d') ->
        diag.HasError ds = true /\ Id d' = Cluster_ID cluster)).
Proof.
  intros Hc d1 h1 wait. split; [reflexivity|]. split; [reflexivity|]. split.
  - intros h'. unfold newVKEStateRefresh, bind, GetCluster, call, ret.
    destruct (getCluster E h' (Id d1)) as [vke|e]; reflexivity.
  - intros payload e Hw run.
    assert (Hrun : run =
      (Some (diag.Errorf
               "error while waiting for kubernetes cluster %v to be completed: %v"
               [AStr (Cluster_ID cluster); AErr e], d1), snd wait)).
    { unfold run, resourceVultrKubernetesCreate, bind, CreateCluster, call, ret.
      rewrite Hc. fold d1 h1 wait.
      destruct wait as [w h2]. simpl in Hw. rewrite Hw. reflexivity. }
    split; [exact Hrun|]. rewrite Hrun. simpl.
    intros ds d' Heq. injection Heq as <- <-. split; reflexivity.
Qed.

(** ** The default node pool *)

Lemma setDefaultNodePool_first (E : Env) (v : NodePool) (after : list NodePool)
    (d : ResourceData) :
  NodePool_Tag v = tfVKEDefault ->
  forall before,
    Forall (fun p => NodePool_Tag p <> tfVKEDefault) before ->
    setDefaultNodePool E (before ++ v :: after) d =
      SetAttr E "node_pools" (VNodePools (flattenNodePool v)) d.
Proof.
  intros Hv before Hb.
  induction Hb as [|p before Hp Hb IH]; cbn [setDefaultNodePool app].
  - rewrite Hv, String.eqb_refl. reflexivity.
  - replace (String.eqb tfVKEDefault (NodePool_Tag p)) with false; [exact IH|].
    symmetry. apply String.eqb_neq. congruence.
Qed.

Lemma setDefaultNodePool_none (E : Env) (d : ResourceData)
    (pools : list NodePool) :
  Forall (fun p => NodePool_Tag p <> tfVKEDefault) pools ->
  setDefaultNodePool E pools d = (d, None).
Proof.
  intros Hb.
  induction Hb as [|p pools Hp Hb IH]; cbn [setDefaultNodePool]; [reflexivity|].
  replace (String.eqb tfVKEDefault (NodePool_Tag p)) with false; [exact IH|].
  symmetry. apply String.eqb_neq. congruence.
Qed.

Lemma GetNodePools_SetString (E : Env) (key value : string) (d : ResourceData) :
  key <> "node_pools" ->
  GetNodePools "node_pools" (SetString E key value d) = GetNodePools "node_pools" d.
Proof.
  intros Hk. unfold SetString, SetAttr.
  destruct (setError E key (VString value)); [reflexivity|].
  unfold GetNodePools, readNodePools. simpl.
  rewrite lookup_insert_ne by exact Hk. reflexivity.
Qed.

(** On a successful read, the [node_pools] attribute ends as the loop
    over the pools left it. *)
Lemma resourceVultrKubernetesRead_node_pools (E : Env) (d d1 : ResourceData)
    (vke : Cluster) (h : History) :
  getCluster E h (Id d) = inl vke ->
  setDefaultNodePool E (Cluster_NodePools vke) d = (d1, None) ->
  GetNodePools "node_pools" (snd (fst (resourceVultrKubernetesRead E d h))) =
    GetNodePools "node_pools" d1.
Proof.
  intros Hg Hs.
  unfold resourceVultrKubernetesRead, bind, GetCluster, GetKubeConfig, call, ret.
  rewrite Hg, Hs.
  match goal with |- context [getKubeConfig E ?h' ?i] =>
    destruct (getKubeConfig E h' i) end; cbn [fst snd];
    rewrite !GetNodePools_SetString by discriminate; reflexivity.
Qed.

(** The request [Update] sends when the configuration has a node pool
    and the prior state has none. *)
Lemma resourceVultrKubernetesUpdate_creates_pool (E : Env) (d : ResourceData)
    (h : History) (n : NodePoolAttrs) (rest : list NodePoolAttrs) :
  HasChangeString "label" d = false ->
  GetChangeNodePools "node_pools" d = ([], n :: rest) ->
  exists req l,
    snd (resourceVultrKubernetesUpdate E d h) =
      h ++ CallCreateNodePool (Id d) req :: l /\
    NodePoolReq_Tag req = tfVKEDefault /\
    NodePoolReq_Label req = pool_label n /\
    NodePoolReq_Plan req = pool_plan n /\
    NodePoolReq_NodeQuantity req = pool_node_quantity n.
Proof.
  intros Hl Hc. unfold GetChangeNodePools in Hc. injection Hc as Hold Hnew.
  unfold resourceVultrKubernetesUpdate, bind, updateLabel. rewrite Hl.
  unfold ret at 1.
  unfold updateNodePools, HasChangeNodePools, GetChangeNodePools.
  rewrite Hold, Hnew. rewrite bool_decide_eq_false_2 by discriminate.
  cbn [negb]. unfold bind, CreateNodePool, call.
  set (req := Build_NodePoolReq _ _ _ _ _ _ _).
  exists req.
  destruct (createNodePool E h (Id d) req).
  - destruct (resourceVultrKubernetesRead_calls E d
                (h ++ [CallCreateNodePool (Id d) req])) as [l [Hl' _]].
    exists l. split; [|repeat split].
    unfold ret at 1. rewrite Hl', <- app_assoc. reflexivity.
  - exists []. split; [|repeat split]. reflexivity.
Qed.

(** C9.  Every node-pool request built from the configuration carries the
    tag [tfVKEDefault]: those of [generateNodePool], hence those of the
    request [Create] sends, and the one [Update] sends when it creates a
    node pool.  [Read] writes to [node_pools] the first pool of the
    cluster that carries that tag, whatever the pools before and after
    it are, and leaves [node_pools] alone when no pool carries it. *)
Theorem node_pools_default_tag (E : Env) :
  (forall pools,
     Forall (fun r => NodePoolReq_Tag r = tfVKEDefault) (generateNodePool pools)) /\
  (forall d,
     Forall (fun r => NodePoolReq_Tag r = tfVKEDefault)
            (ClusterReq_NodePools (createRequest d))) /\
  (forall d h, exists l,
     snd (resourceVultrKubernetesUpdate E d h) = h ++ l /\
     Forall defaultTagged l) /\
  (forall d h n rest,
     HasChangeString "label" d = false ->
     GetChangeNodePools "node_pools" d = ([], n :: rest) ->
     exists req l,
       snd (resourceVultrKubernetesUpdate E d h) =
         h ++ CallCreateNodePool (Id d) req :: l /\
       NodePoolReq_Tag req = tfVKEDefault) /\
  (forall d h vke before v after,
     getCluster E h (Id d) = inl vke ->
     Cluster_NodePools vke = before ++ v :: after ->
     Forall (fun p => NodePool_Tag p <> tfVKEDefault) before ->
     NodePool_Tag v = tfVKEDefault ->
     setError E "node_pools" (VNodePools (flattenNodePool v)) = None ->
     GetNodePools "node_pools" (snd (fst (resourceVultrKubernetesRead E d h))) =
       flattenNodePool v) /\
  (forall d h vke,
     getCluster E h (Id d) = inl vke ->
     Forall (fun p => NodePool_Tag p <> tfVKEDefault) (Cluster_NodePools vke) ->
     GetNodePools "node_pools" (snd (fst (resourceVultrKubernetesRead E d h))) =
       GetNodePools "node_pools" d).
Proof.
  split; [apply generateNodePool_tagged|].
  split; [apply createRequest_tagged|].
  split; [apply resourceVultrKubernetesUpdate_calls|].
  split; [|split].
  - intros d h n rest Hl Hc.
    destruct (resourceVultrKubernetesUpdate_creates_pool E d h n rest Hl Hc)
      as [req [l [Hrun [Htag _]]]].
    exists req, l. split; assumption.
  - intros d h vke before v after Hg Hp Hb Hv Hset.
    rewrite (resourceVultrKubernetesRead_node_pools E d
               (fst (SetAttr E "node_pools" (VNodePools (flattenNodePool v)) d))
               vke h Hg).
    + unfold SetAttr. rewrite Hset. unfold GetNodePools, readNodePools. simpl.
      rewrite lookup_insert_eq. reflexivity.
    + rewrite Hp, (setDefaultNodePool_first E v after d Hv before Hb).
      unfold SetAttr. rewrite Hset. reflexivity.
  - intros d h vke Hg Hb.
    apply (resourceVultrKubernetesRead_node_pools E d d vke h Hg).
    apply setDefaultNodePool_none. exact Hb.
Qed.

(** ** The refresh function for other attributes *)

(** C10.  For an attribute other than [status], a successful read makes
    the refresh function return no payload, the empty label and no
    error; no call of it returns a payload or the label of a non-empty
    target, so that a wait on such an attribute has nothing to converge
    on.  When the read fails, for any attribute, the refresh function
    returns an error built from the cluster ID alone: the error of the
    API is not part of it. *)
Theorem newVKEStateRefresh_other_attribute
    (E : Env) (d : ResourceData) (attr : string) :
  attr <> "status" ->
  (forall h vke,
     getCluster E h (Id d) = inl vke ->
     newVKEStateRefresh E d attr h =
       ({| raw := None; state := ""; err := None |},
        h ++ [CallGetCluster (Id d)])) /\
  (forall h target,
     target <> "" ->
     raw (fst (newVKEStateRefresh E d attr h)) = None /\
     state (fst (newVKEStateRefresh E d attr h)) <> target) /\
  (forall attr' h e,
     getCluster E h (Id d) = inr e ->
     newVKEStateRefresh E d attr' h =
       ({| raw := None; state := "";
           err := Some (Errorf "error retrieving kubernetes cluster %s " [Id d]) |},
        h ++ [CallGetCluster (Id d)])).
Proof.
  intros Hattr. apply String.eqb_neq in Hattr. split; [|split].
  - intros h vke Hg.
    unfold newVKEStateRefresh, bind, GetCluster, call, ret.
    rewrite Hg, Hattr. reflexivity.
  - intros h target Ht.
    unfold newVKEStateRefresh, bind, GetCluster, call, ret.
    destruct (getCluster E h (Id d)) as [vke|e]; [rewrite Hattr|];
      (split; [reflexivity|]); simpl; congruence.
  - intros attr' h e Hg.
    unfold newVKEStateRefresh, bind, GetCluster, call, ret.
    rewrite Hg. reflexivity.
Qed.

(** In the model of the loop, a wait on such an attribute never returns
    without an error. *)
Lemma poll_never_converges (E : Env) (maxInterval : Duration) (d : ResourceData)
    (attr : string) (conf : StateChangeConf) :
  Refresh conf = newVKEStateRefresh E d attr ->
  attr <> "status" ->
  forall (fuel : nat) (b : Duration) (k : nat) (h : History)
         (payload : option Cluster),
    fst (poll E maxInterval fuel conf b k h) <> Some (payload, None).
Proof.
  intros Href Hattr. apply String.eqb_neq in Hattr.
  induction fuel as [|fuel IH]; intros b k h payload; [discriminate|].
  simpl.
  destruct (cancelled E h); [discriminate|].
  destruct (expired E h (Timeout conf)); [discriminate|].
  rewrite Href. unfold newVKEStateRefresh, bind, GetCluster, call, ret.
  destruct (getCluster E h (Id d)) as [vke|e]; [|discriminate].
  rewrite Hattr. simpl.
  destruct k as [|k']; [discriminate|].
  destruct (cancelled E (h ++ [CallGetCluster (Id d)])); [discriminate|].
  apply IH.
Qed.


(** ** The theorems at concrete runs *)

(** The scenario of the specification: target "active", pending list
    "pending", observations pending, pending, active: three fetches,
    success, final label "active". *)
Lemma waitForVKEAvailable_converges_witness :
  let run := waitForVKEAvailable convergingEnv
               (await convergingEnv (10 * time.Second) 3)
               (emptyData "vke-1") "active" ["pending"] "status" [] in
  fst run = Some (Some activeCluster, None) /\
  snd run = [] ++ ticks (10 * time.Second) (CallGetCluster "vke-1")
                    (5 * time.Second) 2
               ++ [CallGetCluster "vke-1"] /\
  polls (snd run) = 3%nat.
Proof.
  apply (waitForVKEAvailable_converges convergingEnv (10 * time.Second)
           (emptyData "vke-1") "active" ["pending"]
           [pendingCluster; pendingCluster] activeCluster [] 3).
  - intros [H|[]]. discriminate H.
  - repeat constructor.
  - reflexivity.
  - intros l r H. simpl in H. simpl. rewrite H. reflexivity.
  - intros l. split; reflexivity.
  - simpl. lia.
Defined.

Lemma waitForVKEAvailable_unexpected_state_witness :
  let run := waitForVKEAvailable failingEnv
               (await failingEnv (10 * time.Second) 1)
               (emptyData "vke-1") "active" ["pending"] "status" [] in
  fst run = Some (None, Some (UnexpectedStateError "failed")) /\
  snd run = [CallGetCluster "vke-1"] /\
  polls (snd run) = 1%nat.
Proof.
  apply (waitForVKEAvailable_unexpected_state failingEnv (10 * time.Second)
           (emptyData "vke-1") "active" ["pending"] failedCluster [] 1).
  - reflexivity.
  - discriminate.
  - intros [H|[]]. discriminate H.
  - reflexivity.
  - reflexivity.
  - lia.
Defined.

Lemma resourceVultrKubernetesRead_error_classes_witness :
  let run := resourceVultrKubernetesRead goneEnv (emptyData "vke-1") [] in
  snd run = [] ++ [CallGetCluster "vke-1"] /\
  (occursIn "Unauthorized" (Error gone) ->
     fst run = (diag.Errorf "API authorization error: %v" [AErr (Remote gone)],
                emptyData "vke-1")) /\
  (~ occursIn "Unauthorized" (Error gone) ->
   occursIn "Invalid resource ID" (Error gone) ->
     fst run = ([], SetId "" (emptyData "vke-1")) /\
     Id (snd (fst run)) = "" /\
     diag.HasError (fst (fst run)) = false) /\
  (~ occursIn "Unauthorized" (Error gone) ->
   ~ occursIn "Invalid resource ID" (Error gone) ->
     fst run = (diag.Errorf "error getting cluster (%s): %v"
                  [AStr "vke-1"; AErr (Remote gone)], emptyData "vke-1")).
Proof.
  apply (resourceVultrKubernetesRead_error_classes goneEnv (emptyData "vke-1")
           gone []).
  reflexivity.
Defined.

(** [Create] when the wait meets an unexpected state, and when the
    timeout expires: an error diagnostic, and the ID of the new cluster
    in the resource data. *)
Lemma resourceVultrKubernetesCreate_wait_failure_witness :
  resourceVultrKubernetesCreate failingEnv (await failingEnv (10 * time.Second) 5)
    (emptyData "") []
    = (Some (diag.Errorf
               "error while waiting for kubernetes cluster %v to be completed: %v"
               [AStr "vke-1"; AErr (UnexpectedStateError "failed")],
             SetId "vke-1" (emptyData "")),
       [CallCreateCluster (createRequest (emptyData "")); CallGetCluster "vke-1"])
  /\
  resourceVultrKubernetesCreate slowEnv (await slowEnv (10 * time.Second) 5)
    (emptyData "") []
    = (Some (diag.Errorf
               "error while waiting for kubernetes cluster %v to be completed: %v"
               [AStr "vke-1"; AErr TimeoutError],
             SetId "vke-1" (emptyData "")),
       [CallCreateCluster (createRequest (emptyData "")); CallGetCluster "vke-1";
        Sleep (5 * time.Second); CallGetCluster "vke-1";
        Sleep (10 * time.Second)]).
Proof.
  split.
  - exact (proj1 (proj2 (proj2 (proj2
      (resourceVultrKubernetesCreate_wait_failure failingEnv
         (await failingEnv (10 * time.Second) 5)
         (emptyData "") pendingCluster [] eq_refl)))
      None (UnexpectedStateError "failed") eq_refl)).
  - exact (proj1 (proj2 (proj2 (proj2
      (resourceVultrKubernetesCreate_wait_failure slowEnv
         (await slowEnv (10 * time.Second) 5)
         (emptyData "") pendingCluster [] eq_refl)))
      None TimeoutError eq_refl)).
Defined.

(** [Read] on a cluster whose second and third pools carry the tag: the
    second one is written to [node_pools].  [Update] with a node pool in
    the configuration and none in the prior state: the request carries
    the tag. *)
Lemma node_pools_default_tag_witness :
  GetNodePools "node_pools"
    (snd (fst (resourceVultrKubernetesRead pooledEnv (emptyData "vke-1") [])))
  = flattenNodePool (mkPool "np-a" "tf-vke-default" 2) /\
  exists req l,
    snd (resourceVultrKubernetesUpdate pooledEnv newPoolData []) =
      [] ++ CallCreateNodePool "vke-1" req :: l /\
    NodePoolReq_Tag req = tfVKEDefault.
Proof.
  split.
  - apply (proj1 (proj2 (proj2 (proj2 (proj2
             (node_pools_default_tag pooledEnv)))))
             (emptyData "vke-1") [] pooledCluster
             [mkPool "np-other" "other" 1] (mkPool "np-a" "tf-vke-default" 2)
             [mkPool "np-b" "tf-vke-default" 3]).
    + reflexivity.
    + reflexivity.
    + repeat constructor. discriminate.
    + reflexivity.
    + reflexivity.
  - apply (proj1 (proj2 (proj2 (proj2 (node_pools_default_tag pooledEnv))))
             newPoolData [] poolAttrs []).
    + reflexivity.
    + reflexivity.
Defined.

Lemma newVKEStateRefresh_other_attribute_witness :
  (forall h vke,
     getCluster steadyEnv h "vke-1" = inl vke ->
     newVKEStateRefresh steadyEnv (emptyData "vke-1") "kube_config" h =
       ({| raw := None; state := ""; err := None |},
        h ++ [CallGetCluster "vke-1"])) /\
  (forall h target,
     target <> "" ->
     raw (fst (newVKEStateRefresh steadyEnv (emptyData "vke-1") "kube_config" h))
       = None /\
     state (fst (newVKEStateRefresh steadyEnv (emptyData "vke-1") "kube_config" h))
       <> target) /\
  (forall attr' h e,
     getCluster steadyEnv h "vke-1" = inr e ->
     newVKEStateRefresh steadyEnv (emptyData "vke-1") attr' h =
       ({| raw := None; state := "";
           err := Some (Errorf "error retrieving kubernetes cluster %s " ["vke-1"]) |},
        h ++ [CallGetCluster "vke-1"])).
Proof.
  apply (newVKEStateRefresh_other_attribute steadyEnv (emptyData "vke-1")
           "kube_config").
  discriminate.
Defined.





(** ** Further runs *)

(** [Create] on the converging scenario: no diagnostic, the new ID, and
    the status read back. *)
Example resourceVultrKubernetesCreate_converging :
  match fst (resourceVultrKubernetesCreate convergingEnv
               (await convergingEnv (10 * time.Second) 5) (emptyData "") []) with
  | Some (ds, d) =>
    ds = [] /\ Id d = "vke-1" /\ GetString "status" d = "active" /\
    GetString "kube_config" d = "a3ViZQ=="
  | None => False
  end.
Proof. vm_compute. repeat split. Qed.

(** With the refresh function of the source on [status], a read that
    fails ends the wait after one fetch, with the error of the refresh
    function: the not-found budget of 60 is not touched. *)
Example waitForVKEAvailable_read_fails :
  waitForVKEAvailable goneEnv (await goneEnv (10 * time.Second) 100)
    (emptyData "vke-1") "active" ["pending"] "status" []
  = (Some (None, Some (Errorf "error retrieving kubernetes cluster %s " ["vke-1"])),
     [CallGetCluster "vke-1"]).
Proof. reflexivity. Qed.

(** With the budget of 60 of [waitForVKEAvailable], on an attribute other
    than [status], the wait gives up at the 61st fetch. *)
Example waitForVKEAvailable_budget_60 :
  let run := waitForVKEAvailable steadyEnv (await steadyEnv (10 * time.Second) 100)
               (emptyData "vke-1") "active" ["pending"] "kube_config" [] in
  fst run = Some (None, Some NotFoundError) /\ polls (snd run) = 61%nat.
Proof. vm_compute. split; reflexivity. Qed.

(** [Read] on an error that mentions both texts: "Unauthorized" wins;
    on an error that mentions neither: the generic error. *)
Example resourceVultrKubernetesRead_unauthorized :
  fst (resourceVultrKubernetesRead
         (scripted (inl pendingCluster) [] (inr unauthorized) never)
         (emptyData "vke-1") [])
  = (diag.Errorf "API authorization error: %v" [AErr (Remote unauthorized)],
     emptyData "vke-1").
Proof. reflexivity. Qed.

Example resourceVultrKubernetesRead_generic_error :
  fst (resourceVultrKubernetesRead
         (scripted (inl pendingCluster) [] (inr unavailable) never)
         (emptyData "vke-1") [])
  = (diag.Errorf "error getting cluster (%s): %v"
       [AStr "vke-1"; AErr (Remote unavailable)],
     emptyData "vke-1").
Proof. reflexivity. Qed.

(** The request of the node-pool creation branch of [Update]. *)
Example resourceVultrKubernetesUpdate_new_pool :
  snd (resourceVultrKubernetesUpdate pooledEnv newPoolData []) =
    [CallCreateNodePool "vke-1"
       {| NodePoolReq_NodeQuantity := 3;
          NodePoolReq_Label := "workers";
          NodePoolReq_Plan := "vc2-1c-2gb";
          NodePoolReq_Tag := "tf-vke-default";
          NodePoolReq_AutoScaler := None;
          NodePoolReq_MinNodes := 0;
          NodePoolReq_MaxNodes := 0 |}].
Proof. vm_compute. reflexivity. Qed.

(** ** Writes to the resource data *)

Lemma SetAttr_Id (E : Env) (key : string) (v : AttrValue) (d : ResourceData) :
  Id (fst (SetAttr E key v d)) = Id d.
Proof. unfold SetAttr. destruct (setError E key v); reflexivity. Qed.

Lemma SetAttr_prior (E : Env) (key : string) (v : AttrValue) (d : ResourceData) :
  prior (fst (SetAttr E key v d)) = prior d.
Proof. unfold SetAttr. destruct (setError E key v); reflexivity. Qed.

Lemma SetAttr_lookup_ne (E : Env) (key key' : string) (v : AttrValue)
    (d : ResourceData) :
  key' <> key ->
  attrs (fst (SetAttr E key v d)) !! key' = attrs d !! key'.
Proof.
  intros Hne. unfold SetAttr. destruct (setError E key v); [reflexivity|].
  simpl. apply lookup_insert_ne. congruence.
Qed.

Lemma SetAttr_lookup (E : Env) (key : string) (v : AttrValue) (d : ResourceData) :
  attrs (fst (SetAttr E key v d)) !! key =
    match setError E key v with
    | Some _ => attrs d !! key
    | None => Some v
    end.
Proof.
  unfold SetAttr. destruct (setError E key v); [reflexivity|].
  simpl. apply lookup_insert_eq.
Qed.

Lemma setAll_Id (E : Env) (l : list (string * AttrValue)) :
  forall d, Id (setAll E l d) = Id d.
Proof.
  induction l as [|[k v] l IH]; intros d; [reflexivity|].
  unfold setAll in *. simpl. rewrite IH. apply SetAttr_Id.
Qed.

Lemma setAll_prior (E : Env) (l : list (string * AttrValue)) :
  forall d, prior (setAll E l d) = prior d.
Proof.
  induction l as [|[k v] l IH]; intros d; [reflexivity|].
  unfold setAll in *. simpl. rewrite IH. apply SetAttr_prior.
Qed.

(** After a run of writes, a key holds the last accepted write to it, or
    what it held before. *)
Lemma setAll_lookup (E : Env) (l : list (string * AttrValue)) (key : string) :
  forall d,
    attrs (setAll E l d) !! key =
      match lastWrite E l key with
      | Some v => Some v
      | None => attrs d !! key
      end.
Proof.
  induction l as [|[k v] l IH]; intros d; [reflexivity|].
  change (setAll E ((k, v) :: l) d) with (setAll E l (fst (SetAttr E k v d))).
  rewrite IH. cbn [lastWrite].
  destruct (lastWrite E l key) as [w|]; [reflexivity|].
  destruct (String.eqb_spec key k) as [->|Hne].
  - rewrite SetAttr_lookup. destruct (setError E k v); reflexivity.
  - rewrite (SetAttr_lookup_ne E k key v d Hne).
    destruct (setError E k v); reflexivity.
Qed.

Lemma ResourceData_eq (d1 d2 : ResourceData) :
  Id d1 = Id d2 -> attrs d1 = attrs d2 -> prior d1 = prior d2 -> d1 = d2.
Proof. destruct d1, d2. simpl. intros -> -> ->. reflexivity. Qed.

(** Writing the same run of values twice leaves what writing it once
    leaves. *)
Lemma setAll_twice (E : Env) (l : list (string * AttrValue)) (d : ResourceData) :
  setAll E l (setAll E l d) = setAll E l d.
Proof.
  apply ResourceData_eq.
  - rewrite !setAll_Id. reflexivity.
  - apply map_eq. intros key. rewrite !setAll_lookup.
    destruct (lastWrite E l key); reflexivity.
  - rewrite !setAll_prior. reflexivity.
Qed.

Lemma setAll_app (E : Env) (l1 l2 : list (string * AttrValue)) (d : ResourceData) :
  setAll E (l1 ++ l2) d = setAll E l2 (setAll E l1 d).
Proof. unfold setAll. apply fold_left_app. Qed.

(** The loop of [Read] over the pools is one write to [node_pools], or
    none. *)
Lemma setDefaultNodePool_cases (E : Env) (pools : list NodePool)
    (d : ResourceData) :
  setDefaultNodePool E pools d = (d, None) \/
  exists v, In v pools /\ NodePool_Tag v = tfVKEDefault /\
    setDefaultNodePool E pools d =
      SetAttr E "node_pools" (VNodePools (flattenNodePool v)) d.
Proof.
  induction pools as [|v pools IH]; cbn [setDefaultNodePool]; [left; reflexivity|].
  destruct (String.eqb_spec tfVKEDefault (NodePool_Tag v)) as [Heq|Hne].
  - right. exists v. split; [left; reflexivity|]. split; [congruence|reflexivity].
  - destruct IH as [IH|[w [Hin [Htag IH]]]]; [left; exact IH|].
    right. exists w. split; [right; exact Hin|]. split; assumption.
Qed.

(** What [Read] leaves in the resource data after the loop over the
    pools went through without error. *)
Lemma resourceVultrKubernetesRead_found (E : Env) (d d1 : ResourceData)
    (vke : Cluster) (h : History) :
  getCluster E h (Id d) = inl vke ->
  setDefaultNodePool E (Cluster_NodePools vke) d = (d1, None) ->
  Id d1 = Id d ->
  resourceVultrKubernetesRead E d h =
    (match getKubeConfig E (h ++ [CallGetCluster (Id d)]) (Id d) with
     | inr e =>
       (diag.Errorf "could not get kubeconfig : %v" [AErr (Remote e)],
        setAll E (clusterWrites vke) d1)
     | inl config =>
       ([], setAll E (clusterWrites vke ++
                      [("kube_config", VString (KubeConfig_KubeConfig config))]) d1)
     end,
     (h ++ [CallGetCluster (Id d)]) ++ [CallGetKubeConfig (Id d)]).
Proof.
  intros Hg Hs Hid.
  unfold resourceVultrKubernetesRead, bind, GetCluster, GetKubeConfig, call, ret.
  rewrite Hg, Hs. unfold SetString. rewrite !SetAttr_Id, Hid.
  destruct (getKubeConfig E (h ++ [CallGetCluster (Id d)]) (Id d)); reflexivity.
Qed.

Lemma setDefaultNodePool_write (E : Env) (vke : Cluster) (d : ResourceData) :
  setDefaultNodePool E (Cluster_NodePools vke) d =
    match rejectedPool E vke with
    | Some e => (d, Some e)
    | None => (setAll E (defaultPoolWrite vke) d, None)
    end.
Proof.
  unfold rejectedPool, defaultPoolWrite.
  induction (Cluster_NodePools vke) as [|v pools IH];
    cbn [setDefaultNodePool List.find]; [reflexivity|].
  destruct (String.eqb tfVKEDefault (NodePool_Tag v)); [|exact IH].
  unfold setAll, SetAttr. simpl.
  destruct (setError E "node_pools" (VNodePools (flattenNodePool v)));
    reflexivity.
Qed.

(** [Read], once [GetCluster] has answered, returns [readOutcome]. *)
Lemma resourceVultrKubernetesRead_outcome (E : Env) (d : ResourceData)
    (vke : Cluster) (h : History) :
  getCluster E h (Id d) = inl vke ->
  fst (resourceVultrKubernetesRead E d h) =
    readOutcome E vke (getKubeConfig E (h ++ [CallGetCluster (Id d)]) (Id d)) d.
Proof.
  intros Hg. unfold readOutcome.
  pose proof (setDefaultNodePool_write E vke d) as Hs.
  destruct (rejectedPool E vke) as [e|].
  - unfold resourceVultrKubernetesRead, bind, GetCluster, call, ret.
    rewrite Hg, Hs. reflexivity.
  - rewrite (resourceVultrKubernetesRead_found E d _ vke h Hg Hs)
      by apply setAll_Id.
    cbn [fst].
    destruct (getKubeConfig E (h ++ [CallGetCluster (Id d)]) (Id d));
      rewrite <- setAll_app; rewrite <- ?app_assoc; reflexivity.
Qed.

Lemma lastWrite_other (E : Env) (key : string) (l : list (string * AttrValue)) :
  ~ In key (map fst l) -> lastWrite E l key = None.
Proof.
  induction l as [|[k v] l IH]; intros Hn; [reflexivity|].
  cbn [lastWrite]. rewrite IH by (intros Hin; apply Hn; right; exact Hin).
  destruct (setError E k v); [reflexivity|].
  destruct (String.eqb_spec key k) as [->|Hne]; [|reflexivity].
  exfalso. apply Hn. left. reflexivity.
Qed.

Lemma defaultPoolWrite_keys (vke : Cluster) (key : string) :
  In key (map fst (defaultPoolWrite vke)) -> key = "node_pools".
Proof.
  unfold defaultPoolWrite. destruct (List.find _ _); simpl; [|tauto].
  intros [H|[]]. symmetry. exact H.
Qed.

(** ** Further properties of [Read] *)

Lemma resourceVultrKubernetesRead_frame_aux
    (E : Env) (d : ResourceData) (h : History) (key : string) :
  ~ In key readKeys ->
  attrs (snd (fst (resourceVultrKubernetesRead E d h))) !! key = attrs d !! key /\
  prior (snd (fst (resourceVultrKubernetesRead E d h))) = prior d.
Proof.
  intros Hkey.
  destruct (getCluster E h (Id d)) as [vke|e] eqn:Hg.
  - rewrite (resourceVultrKubernetesRead_outcome E d vke h Hg).
    unfold readOutcome.
    assert (Hw : forall tail,
      (forall k, In k (map fst tail) -> In k readKeys) ->
      lastWrite E (defaultPoolWrite vke ++ tail) key = None).
    { intros tail Ht. apply lastWrite_other. rewrite map_app, in_app_iff.
      intros [Hin|Hin].
      - apply defaultPoolWrite_keys in Hin. subst. apply Hkey. left. reflexivity.
      - apply Hkey, Ht, Hin. }
    destruct (rejectedPool E vke); [split; reflexivity|].
    destruct (getKubeConfig E (h ++ [CallGetCluster (Id d)]) (Id d));
      cbn [fst snd]; rewrite setAll_lookup, setAll_prior, Hw;
      try (split; reflexivity);
      simpl; unfold readKeys; simpl; tauto.
  - unfold resourceVultrKubernetesRead, bind, GetCluster, call, ret. rewrite Hg.
    destruct (strings.Contains (Error e) "Unauthorized"); [split; reflexivity|].
    destruct (strings.Contains (Error e) "Invalid resource ID");
      split; reflexivity.
Qed.

(** X1.  [Read] writes nothing but its eight attributes: whatever the
    API answers, the prior state and every attribute under another key
    ([label], [region] and [version] among them) are as they were. *)
Theorem resourceVultrKubernetesRead_frame
    (E : Env) (d : ResourceData) (h : History) (key : string) :
  ~ In key readKeys ->
  attrs (snd (fst (resourceVultrKubernetesRead E d h))) !! key = attrs d !! key /\
  prior (snd (fst (resourceVultrKubernetesRead E d h))) = prior d.
Proof. exact (resourceVultrKubernetesRead_frame_aux E d h key). Qed.

Lemma resourceVultrKubernetesRead_frame_witness :
  attrs (snd (fst (resourceVultrKubernetesRead convergingEnv relabelledData [])))
    !! "label" = Some (VString "new") /\
  prior (snd (fst (resourceVultrKubernetesRead convergingEnv relabelledData [])))
    = prior relabelledData.
Proof.
  apply (resourceVultrKubernetesRead_frame convergingEnv relabelledData []
           "label").
  unfold readKeys. simpl. intros H.
  repeat (destruct H as [H|H]; [discriminate H|]). exact H.
Defined.

Lemma resourceVultrKubernetesRead_success_aux
    (E : Env) (d : ResourceData) (vke : Cluster) (config : KubeConfig)
    (h : History) :
  getCluster E h (Id d) = inl vke ->
  getKubeConfig E (h ++ [CallGetCluster (Id d)]) (Id d) = inl config ->
  (forall k v, setError E k v = None) ->
  let run := resourceVultrKubernetesRead E d h in
  let d' := snd (fst run) in
  fst (fst run) = [] /\
  Id d' = Id d /\
  GetString "date_created" d' = Cluster_DateCreated vke /\
  GetString "cluster_subnet" d' = Cluster_ClusterSubnet vke /\
  GetString "service_subnet" d' = Cluster_ServiceSubnet vke /\
  GetString "ip" d' = Cluster_IP vke /\
  GetString "endpoint" d' = Cluster_Endpoint vke /\
  GetString "status" d' = Cluster_Status vke /\
  GetString "kube_config" d' = KubeConfig_KubeConfig config /\
  snd run = h ++ [CallGetCluster (Id d); CallGetKubeConfig (Id d)].
Proof.
  intros Hg Hk Hset run d'.
  assert (Hrej : rejectedPool E vke = None).
  { unfold rejectedPool. destruct (defaultPoolWrite vke) as [|[k v] l];
      [reflexivity|apply Hset]. }
  assert (Hout : fst run =
    ([], setAll E (clusterWrites vke ++
                   [("kube_config", VString (KubeConfig_KubeConfig config))])
           (setAll E (defaultPoolWrite vke) d))).
  { unfold run. rewrite (resourceVultrKubernetesRead_outcome E d vke h Hg).
    unfold readOutcome. rewrite Hrej, Hk, setAll_app. reflexivity. }
  assert (Hhist : snd run = h ++ [CallGetCluster (Id d); CallGetKubeConfig (Id d)]).
  { unfold run.
    pose proof (setDefaultNodePool_write E vke d) as Hs. rewrite Hrej in Hs.
    rewrite (resourceVultrKubernetesRead_found E d _ vke h Hg Hs)
      by apply setAll_Id.
    cbn [snd]. rewrite <- app_assoc. reflexivity. }
  unfold d'. rewrite Hout. cbn [fst snd].
  split; [reflexivity|]. split; [rewrite !setAll_Id; reflexivity|].
  unfold GetString, readString. rewrite !setAll_lookup.
  cbn [lastWrite clusterWrites app]. rewrite !Hset. simpl.
  repeat split. exact Hhist.
Qed.

(** X2.  When both reads succeed and the schema accepts the values,
    [Read] returns no diagnostic, keeps the ID, leaves the seven computed
    attributes equal to what the API answered, and has made exactly the
    two calls [GetCluster] and [GetKubeConfig] for that ID. *)
Theorem resourceVultrKubernetesRead_success
    (E : Env) (d : ResourceData) (vke : Cluster) (config : KubeConfig)
    (h : History) :
  getCluster E h (Id d) = inl vke ->
  getKubeConfig E (h ++ [CallGetCluster (Id d)]) (Id d) = inl config ->
  (forall k v, setError E k v = None) ->
  let run := resourceVultrKubernetesRead E d h in
  let d' := snd (fst run) in
  fst (fst run) = [] /\
  Id d' = Id d /\
  GetString "date_created" d' = Cluster_DateCreated vke /\
  GetString "cluster_subnet" d' = Cluster_ClusterSubnet vke /\
  GetString "service_subnet" d' = Cluster_ServiceSubnet vke /\
  GetString "ip" d' = Cluster_IP vke /\
  GetString "endpoint" d' = Cluster_Endpoint vke /\
  GetString "status" d' = Cluster_Status vke /\
  GetString "kube_config" d' = KubeConfig_KubeConfig config /\
  snd run = h ++ [CallGetCluster (Id d); CallGetKubeConfig (Id d)].
Proof. exact (resourceVultrKubernetesRead_success_aux E d vke config h). Qed.

Lemma resourceVultrKubernetesRead_success_witness :
  let run := resourceVultrKubernetesRead convergingEnv (emptyData "vke-1") [] in
  let d' := snd (fst run) in
  fst (fst run) = [] /\
  Id d' = "vke-1" /\
  GetString "date_created" d' = "2022-01-01" /\
  GetString "cluster_subnet" d' = "10.244.0.0/16" /\
  GetString "service_subnet" d' = "10.96.0.0/12" /\
  GetString "ip" d' = "10.0.0.1" /\
  GetString "endpoint" d' = "vke.example" /\
  GetString "status" d' = "pending" /\
  GetString "kube_config" d' = "a3ViZQ==" /\
  snd run = [] ++ [CallGetCluster "vke-1"; CallGetKubeConfig "vke-1"].
Proof.
  apply (resourceVultrKubernetesRead_success convergingEnv (emptyData "vke-1")
           pendingCluster {| KubeConfig_KubeConfig := "a3ViZQ==" |} []).
  - reflexivity.
  - reflexivity.
  - intros k v. reflexivity.
Defined.

(** X3.  When [GetKubeConfig] fails after a successful [GetCluster],
    [Read] returns the kubeconfig error, yet the six attributes of the
    cluster are already written and stay; [kube_config] and the ID are
    as they were. *)
Theorem resourceVultrKubernetesRead_kubeconfig_failure
    (E : Env) (d : ResourceData) (vke : Cluster) (e : ApiError) (h : History) :
  getCluster E h (Id d) = inl vke ->
  getKubeConfig E (h ++ [CallGetCluster (Id d)]) (Id d) = inr e ->
  (forall k v, setError E k v = None) ->
  let run := resourceVultrKubernetesRead E d h in
  let d' := snd (fst run) in
  fst (fst run) = diag.Errorf "could not get kubeconfig : %v" [AErr (Remote e)] /\
  Id d' = Id d /\
  GetString "status" d' = Cluster_Status vke /\
  GetString "endpoint" d' = Cluster_Endpoint vke /\
  GetString "ip" d' = Cluster_IP vke /\
  GetString "date_created" d' = Cluster_DateCreated vke /\
  GetString "cluster_subnet" d' = Cluster_ClusterSubnet vke /\
  GetString "service_subnet" d' = Cluster_ServiceSubnet vke /\
  attrs d' !! "kube_config" = attrs d !! "kube_config".
Proof.
  intros Hg Hk Hset run d'.
  assert (Hrej : rejectedPool E vke = None).
  { unfold rejectedPool. destruct (defaultPoolWrite vke) as [|[k v] l];
      [reflexivity|apply Hset]. }
  assert (Hout : fst run =
    (diag.Errorf "could not get kubeconfig : %v" [AErr (Remote e)],
     setAll E (clusterWrites vke) (setAll E (defaultPoolWrite vke) d))).
  { unfold run. rewrite (resourceVultrKubernetesRead_outcome E d vke h Hg).
    unfold readOutcome. rewrite Hrej, Hk, setAll_app. reflexivity. }
  unfold d'. rewrite Hout. cbn [fst snd].
  split; [reflexivity|]. split; [rewrite !setAll_Id; reflexivity|].
  unfold GetString, readString. rewrite !setAll_lookup.
  cbn [lastWrite clusterWrites]. rewrite !Hset. simpl.
  repeat split.
  rewrite (lastWrite_other E "kube_config" (defaultPoolWrite vke)); [reflexivity|].
  intros Hin. apply defaultPoolWrite_keys in Hin. discriminate Hin.
Qed.

Lemma resourceVultrKubernetesRead_kubeconfig_failure_witness :
  let run := resourceVultrKubernetesRead refusingEnv (emptyData "vke-1") [] in
  let d' := snd (fst run) in
  fst (fst run) =
    diag.Errorf "could not get kubeconfig : %v" [AErr (Remote unavailable)] /\
  Id d' = "vke-1" /\
  GetString "status" d' = "active" /\
  GetString "endpoint" d' = "vke.example" /\
  GetString "ip" d' = "10.0.0.1" /\
  GetString "date_created" d' = "2022-01-01" /\
  GetString "cluster_subnet" d' = "10.244.0.0/16" /\
  GetString "service_subnet" d' = "10.96.0.0/12" /\
  attrs d' !! "kube_config" = (∅ : gmap string AttrValue) !! "kube_config".
Proof.
  apply (resourceVultrKubernetesRead_kubeconfig_failure refusingEnv
           (emptyData "vke-1") activeCluster unavailable []).
  - reflexivity.
  - reflexivity.
  - intros k v. reflexivity.
Defined.

Lemma resourceVultrKubernetesRead_only_reads_aux
    (E : Env) (d : ResourceData) (h : History) :
  snd (resourceVultrKubernetesRead E d h) = h ++ [CallGetCluster (Id d)] \/
  snd (resourceVultrKubernetesRead E d h) =
    h ++ [CallGetCluster (Id d); CallGetKubeConfig (Id d)].
Proof.
  destruct (getCluster E h (Id d)) as [vke|e] eqn:Hg.
  - pose proof (setDefaultNodePool_write E vke d) as Hs.
    destruct (rejectedPool E vke) as [e|].
    + left. unfold resourceVultrKubernetesRead, bind, GetCluster, call, ret.
      rewrite Hg, Hs. reflexivity.
    + right.
      rewrite (resourceVultrKubernetesRead_found E d _ vke h Hg Hs)
        by apply setAll_Id.
      cbn [snd]. rewrite <- app_assoc. reflexivity.
  - left. unfold resourceVultrKubernetesRead, bind, GetCluster, call, ret.
    rewrite Hg.
    destruct (strings.Contains (Error e) "Unauthorized"); [reflexivity|].
    destruct (strings.Contains (Error e) "Invalid resource ID"); reflexivity.
Qed.

(** X4.  [Read] only reads: its calls are [GetCluster] for the ID of the
    resource, followed or not by [GetKubeConfig] for the same ID. *)
Theorem resourceVultrKubernetesRead_only_reads
    (E : Env) (d : ResourceData) (h : History) :
  snd (resourceVultrKubernetesRead E d h) = h ++ [CallGetCluster (Id d)] \/
  snd (resourceVultrKubernetesRead E d h) =
    h ++ [CallGetCluster (Id d); CallGetKubeConfig (Id d)].
Proof. exact (resourceVultrKubernetesRead_only_reads_aux E d h). Qed.

Lemma resourceVultrKubernetesRead_id_aux
    (E : Env) (d : ResourceData) (h : History) :
  let run := resourceVultrKubernetesRead E d h in
  (clusterGone E h (Id d) -> Id (snd (fst run)) = "" /\ fst (fst run) = []) /\
  (~ clusterGone E h (Id d) -> Id (snd (fst run)) = Id d).
Proof.
  intros run. unfold run. split.
  - intros [e [Hg [Hi Hu]]].
    unfold resourceVultrKubernetesRead, bind, GetCluster, call, ret. rewrite Hg.
    apply Contains_spec in Hi. apply Contains_false in Hu.
    rewrite Hu, Hi. split; reflexivity.
  - intros Hn.
    destruct (getCluster E h (Id d)) as [vke|e] eqn:Hg.
    + rewrite (resourceVultrKubernetesRead_outcome E d vke h Hg).
      unfold readOutcome. destruct (rejectedPool E vke); [reflexivity|].
      destruct (getKubeConfig E (h ++ [CallGetCluster (Id d)]) (Id d));
        apply setAll_Id.
    + unfold resourceVultrKubernetesRead, bind, GetCluster, call, ret. rewrite Hg.
      destruct (strings.Contains (Error e) "Unauthorized") eqn:Hu;
        [reflexivity|].
      destruct (strings.Contains (Error e) "Invalid resource ID") eqn:Hi;
        [|reflexivity].
      exfalso. apply Hn. exists e. split; [exact Hg|]. split.
      * apply Contains_spec. exact Hi.
      * apply Contains_false. exact Hu.
Qed.

(** X5.  [Read] clears the resource ID exactly when [GetCluster] failed
    with an error whose text has "Invalid resource ID" and not
    "Unauthorized" in it: on such an error the ID is empty afterwards
    and [Read] returns no diagnostic; on every other answer, a failure
    or not, the ID is kept. *)
Theorem resourceVultrKubernetesRead_id
    (E : Env) (d : ResourceData) (h : History) :
  let run := resourceVultrKubernetesRead E d h in
  (clusterGone E h (Id d) -> Id (snd (fst run)) = "" /\ fst (fst run) = []) /\
  (~ clusterGone E h (Id d) -> Id (snd (fst run)) = Id d).
Proof. exact (resourceVultrKubernetesRead_id_aux E d h). Qed.

(** [Read] on an error that says the cluster is not there, and on one
    that says so inside an authorization error. *)
Lemma resourceVultrKubernetesRead_id_witness :
  (Id (snd (fst (resourceVultrKubernetesRead vanishedEnv (emptyData "vke-1") [])))
     = "" /\
   fst (fst (resourceVultrKubernetesRead vanishedEnv (emptyData "vke-1") [])) = []) /\
  Id (snd (fst (resourceVultrKubernetesRead
                  (scripted (inl pendingCluster) [] (inr unauthorized) never)
                  (emptyData "vke-1") []))) = "vke-1".
Proof.
  split.
  - apply (proj1 (resourceVultrKubernetesRead_id vanishedEnv (emptyData "vke-1") [])).
    exists gone. split; [reflexivity|]. split.
    + exists "", "". reflexivity.
    + apply Contains_false. reflexivity.
  - apply (proj2 (resourceVultrKubernetesRead_id
                    (scripted (inl pendingCluster) [] (inr unauthorized) never)
                    (emptyData "vke-1") [])).
    intros [e [Hg [_ Hu]]]. injection Hg as <-. apply Hu.
    exists "", ": Invalid resource ID in token". reflexivity.
Defined.

(** X6.  [Read] is idempotent on the resource data: when the API answers
    the calls of a second [Read], made on the resource data the first
    returned, as it answered those of the first, the second returns the
    diagnostics and the resource data the first returned.  This holds on
    every branch: a failure of [GetCluster] of any of the three classes,
    a rejected [node_pools] value, a failure of [GetKubeConfig], and
    success. *)
Theorem resourceVultrKubernetesRead_idempotent
    (E : Env) (d : ResourceData) (h h' : History) :
  let d1 := snd (fst (resourceVultrKubernetesRead E d h)) in
  getCluster E h' (Id d1) = getCluster E h (Id d) ->
  (forall vke, getCluster E h (Id d) = inl vke ->
     getKubeConfig E (h' ++ [CallGetCluster (Id d)]) (Id d) =
     getKubeConfig E (h ++ [CallGetCluster (Id d)]) (Id d)) ->
  fst (resourceVultrKubernetesRead E d1 h') =
  fst (resourceVultrKubernetesRead E d h).
Proof.
  intros d1 Hg' Hk.
  destruct (getCluster E h (Id d)) as [vke|e] eqn:Hg.
  - specialize (Hk vke eq_refl). revert Hg'. unfold d1.
    rewrite (resourceVultrKubernetesRead_outcome E d vke h Hg).
    set (kc := getKubeConfig E (h ++ [CallGetCluster (Id d)]) (Id d)) in *.
    assert (Hid : Id (snd (readOutcome E vke kc d)) = Id d).
    { unfold readOutcome. destruct (rejectedPool E vke); [reflexivity|].
      destruct kc; apply setAll_Id. }
    intros Hg'.
    rewrite (resourceVultrKubernetesRead_outcome E _ vke h');
      [|exact Hg'].
    rewrite Hid, Hk. unfold readOutcome.
    destruct (rejectedPool E vke); [reflexivity|].
    destruct kc; cbn [snd]; rewrite setAll_twice; reflexivity.
  - revert Hg'. unfold d1.
    unfold resourceVultrKubernetesRead, bind, GetCluster, call, ret. rewrite Hg.
    destruct (strings.Contains (Error e) "Unauthorized") eqn:Hu.
    { cbn [fst snd]. intros Hg'. rewrite Hg', Hu. reflexivity. }
    destruct (strings.Contains (Error e) "Invalid resource ID") eqn:Hi.
    { cbn [fst snd]. intros Hg'. rewrite Hg', Hu, Hi. reflexivity. }
    cbn [fst snd]. intros Hg'. rewrite Hg', Hu, Hi. reflexivity.
Qed.

(** A second [Read] after a successful one, and after one that found the
    cluster gone. *)
Lemma resourceVultrKubernetesRead_idempotent_witness :
  fst (resourceVultrKubernetesRead pooledEnv
         (snd (fst (resourceVultrKubernetesRead pooledEnv relabelledData [])))
         [CallGetCluster "vke-1"; CallGetKubeConfig "vke-1"]) =
  fst (resourceVultrKubernetesRead pooledEnv relabelledData []) /\
  fst (resourceVultrKubernetesRead vanishedEnv
         (snd (fst (resourceVultrKubernetesRead vanishedEnv relabelledData [])))
         [CallGetCluster "vke-1"]) =
  fst (resourceVultrKubernetesRead vanishedEnv relabelledData []).
Proof.
  split.
  - apply (resourceVultrKubernetesRead_idempotent pooledEnv relabelledData
             [] [CallGetCluster "vke-1"; CallGetKubeConfig "vke-1"]).
    + reflexivity.
    + intros vke _. reflexivity.
  - apply (resourceVultrKubernetesRead_idempotent vanishedEnv relabelledData
             [] [CallGetCluster "vke-1"]).
    + reflexivity.
    + intros vke _. reflexivity.
Defined.

(** X7.  [Read] and the schema agree: every key [Read] may write is
    declared in the schema, none of them is a required attribute, and
    every attribute the schema declares as computed is among those a
    successful [Read] writes. *)
Theorem resourceVultrKubernetesSchema_read_keys :
  Forall (fun key => exists s, schemaOf key = Some s /\ Schema_Required s = false)
         readKeys /\
  Forall (fun kv => Schema_Computed (snd kv) = true -> In (fst kv) readKeys)
         resourceVultrKubernetesSchema /\
  (forall key s, schemaOf key = Some s -> Schema_Required s = true ->
     forall E d h,
       attrs (snd (fst (resourceVultrKubernetesRead E d h))) !! key =
       attrs d !! key).
Proof.
  split; [|split].
  - unfold readKeys.
    repeat (apply List.Forall_cons; [eexists; split; reflexivity|]).
    apply List.Forall_nil.
  - unfold resourceVultrKubernetesSchema, readKeys.
    repeat (apply List.Forall_cons;
            [cbn [fst snd]; first [discriminate | intros _; simpl; tauto]|]).
    apply List.Forall_nil.
  - intros key s Hs Hreq E d h.
    apply resourceVultrKubernetesRead_frame_aux. intros Hin.
    unfold readKeys in Hin. simpl in Hin.
    repeat (destruct Hin as [<-|Hin];
            [vm_compute in Hs; injection Hs as <-; discriminate Hreq|]).
    exact Hin.
Qed.

(** ** Further properties of [Update] *)

Lemma count_app (f : Call -> bool) (l1 l2 : History) :
  count f (l1 ++ l2) = (count f l1 + count f l2)%nat.
Proof. unfold count. rewrite List.filter_app, length_app. reflexivity. Qed.

Lemma updateLabel_shape (E : Env) (d : ResourceData) (h : History) :
  snd (updateLabel E d h) = h \/
  snd (updateLabel E d h) =
    h ++ [CallUpdateCluster (Id d)
            {| ClusterReqUpdate_Label := GetString "label" d |}].
Proof.
  unfold updateLabel, bind, UpdateCluster, call, ret.
  destruct (HasChangeString "label" d); [right|left; reflexivity].
  destruct (updateCluster E h (Id d) _); reflexivity.
Qed.

Lemma updateNodePools_shape (E : Env) (d : ResourceData) (h : History) :
  snd (updateNodePools E d h) = h \/
  exists c, isNodePoolCall c = true /\ snd (updateNodePools E d h) = h ++ [c].
Proof.
  unfold updateNodePools, GetChangeNodePools.
  destruct (HasChangeNodePools "node_pools" d); [|left; reflexivity].
  destruct (readNodePools (attrs d) "node_pools") as [|n newNP];
    destruct (readNodePools (prior d) "node_pools") as [|o oldNP];
    try (left; reflexivity); right;
    unfold bind, UpdateNodePool, DeleteNodePool, CreateNodePool, call, ret.
  - eexists. split; [|destruct (deleteNodePool E h (Id d) (pool_id o)); reflexivity].
    reflexivity.
  - eexists. split; [|destruct (createNodePool E h (Id d) _); reflexivity].
    reflexivity.
  - eexists. split; [|destruct (updateNodePool E h (Id d) (pool_id n) _); reflexivity].
    reflexivity.
Qed.

Lemma resourceVultrKubernetesRead_counts (E : Env) (d : ResourceData)
    (h : History) :
  exists l, snd (resourceVultrKubernetesRead E d h) = h ++ l /\
            count isMutation l = O.
Proof.
  destruct (resourceVultrKubernetesRead_only_reads_aux E d h) as [H|H];
    rewrite H; eexists; (split; [reflexivity|reflexivity]).
Qed.

(** X8.  When neither [label] nor [node_pools] has changed, [Update] is
    [Read]: same calls, same diagnostics, same resource data. *)
Theorem resourceVultrKubernetesUpdate_no_change
    (E : Env) (d : ResourceData) (h : History) :
  HasChangeString "label" d = false ->
  HasChangeNodePools "node_pools" d = false ->
  resourceVultrKubernetesUpdate E d h = resourceVultrKubernetesRead E d h.
Proof.
  intros Hl Hn.
  unfold resourceVultrKubernetesUpdate, bind, updateLabel, updateNodePools, ret.
  rewrite Hl, Hn. reflexivity.
Qed.

Lemma resourceVultrKubernetesUpdate_no_change_witness :
  resourceVultrKubernetesUpdate convergingEnv (emptyData "vke-1") [] =
  resourceVultrKubernetesRead convergingEnv (emptyData "vke-1") [].
Proof.
  apply (resourceVultrKubernetesUpdate_no_change convergingEnv
           (emptyData "vke-1") []); reflexivity.
Defined.

(** X9.  In one run [Update] changes the remote end with at most one
    [UpdateCluster] call and at most one node-pool call, and never
    creates or deletes a cluster. *)
Theorem resourceVultrKubernetesUpdate_mutations
    (E : Env) (d : ResourceData) (h : History) :
  exists l,
    snd (resourceVultrKubernetesUpdate E d h) = h ++ l /\
    (count isNodePoolCall l <= 1)%nat /\
    (count isMutation l <= 2)%nat /\
    count isClusterLifecycle l = O.
Proof.
  unfold resourceVultrKubernetesUpdate, bind.
  assert (Hlabel : exists l1,
    snd (updateLabel E d h) = h ++ l1 /\ count isNodePoolCall l1 = O /\
    (count isMutation l1 <= 1)%nat /\ count isClusterLifecycle l1 = O).
  { destruct (updateLabel_shape E d h) as [H|H]; rewrite H.
    - exists []. rewrite app_nil_r. split; [reflexivity|].
      split; [reflexivity|]. split; [unfold count; simpl; lia|reflexivity].
    - eexists. split; [reflexivity|]. split; [reflexivity|].
      split; [unfold count; simpl; lia|reflexivity]. }
  destruct Hlabel as [l1 [H1 [Hn1 [Hm1 Hc1]]]].
  destruct (updateLabel E d h) as [r1 h1]. simpl in H1. subst h1.
  destruct r1 as [ds|].
  { exists l1. cbn [snd ret]. split; [reflexivity|].
    split; [lia|]. split; [lia|assumption]. }
  assert (Hpools : exists l2,
    snd (updateNodePools E d (h ++ l1)) = (h ++ l1) ++ l2 /\
    (count isNodePoolCall l2 <= 1)%nat /\
    (count isMutation l2 <= 1)%nat /\ count isClusterLifecycle l2 = O).
  { destruct (updateNodePools_shape E d (h ++ l1)) as [H|[c [Hc H]]]; rewrite H.
    - exists []. rewrite app_nil_r. split; [reflexivity|].
      unfold count. simpl. split; [lia|]. split; [lia|reflexivity].
    - exists [c]. split; [reflexivity|]. unfold count.
      destruct c; try discriminate Hc; simpl;
        (split; [lia|]; split; [lia|reflexivity]). }
  destruct Hpools as [l2 [H2 [Hn2 [Hm2 Hc2]]]].
  destruct (updateNodePools E d (h ++ l1)) as [r2 h2]. simpl in H2. subst h2.
  destruct r2 as [ds|].
  { exists (l1 ++ l2). cbn [snd ret]. rewrite <- app_assoc, !count_app.
    split; [reflexivity|]. split; [lia|]. split; lia. }
  destruct (resourceVultrKubernetesRead_counts E d ((h ++ l1) ++ l2))
    as [l3 [H3 Hm3]].
  assert (Hsub : count isNodePoolCall l3 = O /\ count isClusterLifecycle l3 = O).
  { clear H3. unfold count in *. induction l3 as [|c l3 IH]; [split; reflexivity|].
    simpl in Hm3. destruct c; simpl in *; try discriminate Hm3; apply IH, Hm3. }
  exists (l1 ++ l2 ++ l3). rewrite H3, <- !app_assoc, !count_app.
  destruct Hsub. split; [reflexivity|]. split; [lia|]. split; lia.
Qed.

(** X11.  With the label unchanged and a changed [node_pools]: when both
    the configuration and the prior state have a pool, [Update] sends
    one [UpdateNodePool] for the ID and the settings of the first
    configured pool, with an empty tag; when only the prior state has
    one, it sends [DeleteNodePool] for the ID of the first prior pool.
    Pools after the first play no part. *)
Theorem resourceVultrKubernetesUpdate_pool_branches
    (E : Env) (d : ResourceData) (h : History)
    (o : NodePoolAttrs) (olds : list NodePoolAttrs) :
  HasChangeString "label" d = false ->
  readNodePools (prior d) "node_pools" = o :: olds ->
  (forall n news,
     readNodePools (attrs d) "node_pools" = n :: news ->
     n :: news <> o :: olds ->
     exists l,
       snd (resourceVultrKubernetesUpdate E d h) =
         h ++ CallUpdateNodePool (Id d) (pool_id n)
                {| NodePoolReqUpdate_NodeQuantity := pool_node_quantity n;
                   NodePoolReqUpdate_Tag := "";
                   NodePoolReqUpdate_AutoScaler := Some (pool_auto_scaler n);
                   NodePoolReqUpdate_MinNodes := pool_min_nodes n;
                   NodePoolReqUpdate_MaxNodes := pool_max_nodes n |} :: l /\
       count isMutation l = O) /\
  (readNodePools (attrs d) "node_pools" = [] ->
     exists l,
       snd (resourceVultrKubernetesUpdate E d h) =
         h ++ CallDeleteNodePool (Id d) (pool_id o) :: l /\
       count isMutation l = O).
Proof.
  intros Hl Hold.
  assert (Hread : forall c r,
    exists l,
      snd ((let (a, h1) := ret (r : option Diagnostics) (h ++ [c]) in
            match a with
            | Some ds => ret (ds, d)
            | None => resourceVultrKubernetesRead E d
            end h1)) = h ++ c :: l /\ count isMutation l = O).
  { intros c [ds|]; unfold ret at 1.
    - exists []. split; reflexivity.
    - destruct (resourceVultrKubernetesRead_counts E d (h ++ [c])) as [l [H Hm]].
      exists l. split; [|exact Hm]. rewrite H, <- app_assoc. reflexivity. }
  split.
  - intros n news Hnew Hne.
    unfold resourceVultrKubernetesUpdate, bind, updateLabel. rewrite Hl.
    unfold ret at 1.
    unfold updateNodePools, HasChangeNodePools, GetChangeNodePools.
    rewrite Hold, Hnew. rewrite bool_decide_eq_false_2 by congruence.
    cbn [negb]. unfold bind, UpdateNodePool, call, BoolToBoolPtr.
    destruct (updateNodePool E h (Id d) (pool_id n) _); apply Hread.
  - intros Hnew.
    unfold resourceVultrKubernetesUpdate, bind, updateLabel. rewrite Hl.
    unfold ret at 1.
    unfold updateNodePools, HasChangeNodePools, GetChangeNodePools.
    rewrite Hold, Hnew. rewrite bool_decide_eq_false_2 by discriminate.
    cbn [negb]. unfold bind, DeleteNodePool, call.
    destruct (deleteNodePool E h (Id d) (pool_id o)); apply Hread.
Qed.

Lemma resourceVultrKubernetesUpdate_pool_branches_witness :
  (exists l,
     snd (resourceVultrKubernetesUpdate refusingEnv resizedData []) =
       [] ++ CallUpdateNodePool "vke-1" "np-a"
               {| NodePoolReqUpdate_NodeQuantity := 5;
                  NodePoolReqUpdate_Tag := "";
                  NodePoolReqUpdate_AutoScaler := Some true;
                  NodePoolReqUpdate_MinNodes := 2;
                  NodePoolReqUpdate_MaxNodes := 6 |} :: l /\
     count isMutation l = O) /\
  (exists l,
     snd (resourceVultrKubernetesUpdate refusingEnv removedPoolData []) =
       [] ++ CallDeleteNodePool "vke-1" "np-a" :: l /\
     count isMutation l = O).
Proof.
  split.
  - refine (proj1 (resourceVultrKubernetesUpdate_pool_branches refusingEnv
             resizedData [] _ [] eq_refl eq_refl) _ [] eq_refl _).
    discriminate.
  - exact (proj2 (resourceVultrKubernetesUpdate_pool_branches refusingEnv
             removedPoolData [] _ [] eq_refl eq_refl) eq_refl).
Defined.

(** ** Further properties of [Create] *)

(** X10.  What [Create] returns and the resource ID it leaves, whatever
    the wait function is.  When [CreateCluster] fails, [Create] returns
    that error after this one call, with the resource data untouched.
    When it succeeds, [Create] goes on as the wait does on the data
    carrying the ID of the created cluster: it does not return if the
    wait does not; it returns an error and that data if the wait fails;
    and if the wait succeeds it returns what the closing [Read] on that
    data returns, so that the ID is empty, with no diagnostic, when the
    [GetCluster] of that [Read] finds the cluster gone, and is the ID of
    the created cluster otherwise. *)
Theorem resourceVultrKubernetesCreate_id
    (E : Env) (W : StateChangeConf -> M (option WaitResult))
    (d : ResourceData) (h : History) :
  let run := resourceVultrKubernetesCreate E W d h in
  let h1 := h ++ [CallCreateCluster (createRequest d)] in
  (forall e,
     createCluster E h (createRequest d) = inr e ->
     run = (Some (diag.Errorf "error creating kubernetes cluster: %v"
                    [AErr (Remote e)], d), h1)) /\
  (forall cluster,
     createCluster E h (createRequest d) = inl cluster ->
     let d1 := SetId (Cluster_ID cluster) d in
     let wait := waitForVKEAvailable E W d1 "active" ["pending"] "status" h1 in
     (forall h2, wait = (None, h2) -> run = (None, h2)) /\
     (forall payload e h2,
        wait = (Some (payload, Some e), h2) ->
        exists ds,
          run = (Some (ds, d1), h2) /\ diag.HasError ds = true /\
          Id d1 = Cluster_ID cluster) /\
     (forall payload h2,
        wait = (Some (payload, None), h2) ->
        let read := resourceVultrKubernetesRead E d1 h2 in
        run = (Some (fst read), snd read) /\
        (clusterGone E h2 (Cluster_ID cluster) ->
         exists d', fst run = Some ([], d') /\ Id d' = "") /\
        (~ clusterGone E h2 (Cluster_ID cluster) ->
         exists ds d', fst run = Some (ds, d') /\ Id d' = Cluster_ID cluster))).
Proof.
  intros run h1. unfold run, h1.
  unfold resourceVultrKubernetesCreate, bind, CreateCluster, call, ret.
  split.
  - intros e He. rewrite He. reflexivity.
  - intros cluster Hc. rewrite Hc. cbn zeta.
    split; [|split].
    + intros h2 Hw. rewrite Hw. reflexivity.
    + intros payload e h2 Hw. rewrite Hw.
      eexists. split; [reflexivity|]. split; reflexivity.
    + intros payload h2 Hw. rewrite Hw.
      pose proof (resourceVultrKubernetesRead_id_aux E
                    (SetId (Cluster_ID cluster) d) h2) as [Hgone Hkept].
      destruct (resourceVultrKubernetesRead E (SetId (Cluster_ID cluster) d) h2)
        as [[ds1 d1] h3].
      cbn [fst snd SetId Id] in *.
      split; [reflexivity|]. split.
      * intros Hg. destruct (Hgone Hg) as [Hid Hds].
        exists d1. rewrite Hds. split; [reflexivity|exact Hid].
      * intros Hg. exists ds1, d1. split; [reflexivity|exact (Hkept Hg)].
Qed.

(** [Create] on an API that refuses to create, and on one for which the
    cluster is gone by the time [Read] looks for it. *)
Lemma resourceVultrKubernetesCreate_id_witness :
  resourceVultrKubernetesCreate refusingEnv neverReturns (emptyData "") [] =
    (Some (diag.Errorf "error creating kubernetes cluster: %v"
             [AErr (Remote unavailable)], emptyData ""),
     [] ++ [CallCreateCluster (createRequest (emptyData ""))]) /\
  (exists d',
     fst (resourceVultrKubernetesCreate
            (scripted (inl pendingCluster) [inl activeCluster] (inr gone) never)
            fetchOnce (emptyData "") []) = Some ([], d') /\
     Id d' = "").
Proof.
  split.
  - apply (proj1 (resourceVultrKubernetesCreate_id refusingEnv neverReturns
                    (emptyData "") []) unavailable).
    reflexivity.
  - refine (proj1 (proj2 (proj2 (proj2 (proj2
             (resourceVultrKubernetesCreate_id
                (scripted (inl pendingCluster) [inl activeCluster] (inr gone) never)
                fetchOnce (emptyData "") [])
             pendingCluster eq_refl))
             (Some activeCluster)
             [CallCreateCluster (createRequest (emptyData ""));
              CallGetCluster "vke-1"] eq_refl)) _).
    exists gone. split; [reflexivity|]. split.
    + exists "", "". reflexivity.
    + apply Contains_false. reflexivity.
Defined.

(** X13.  When [CreateCluster] succeeds, the wait returns without error
    and the two reads of [Read] succeed, [Create] returns no diagnostic;
    the resource data carries the ID of the created cluster, and its
    status and kubeconfig are those [Read] fetched after the wait, not
    those of the reply to [CreateCluster]. *)
Theorem resourceVultrKubernetesCreate_success
    (E : Env) (W : StateChangeConf -> M (option WaitResult))
    (d : ResourceData) (cluster vke : Cluster) (config : KubeConfig)
    (payload : option Cluster) (h h2 : History) :
  createCluster E h (createRequest d) = inl cluster ->
  waitForVKEAvailable E W (SetId (Cluster_ID cluster) d) "active" ["pending"]
    "status" (h ++ [CallCreateCluster (createRequest d)])
    = (Some (payload, None), h2) ->
  getCluster E h2 (Cluster_ID cluster) = inl vke ->
  getKubeConfig E (h2 ++ [CallGetCluster (Cluster_ID cluster)]) (Cluster_ID cluster)
    = inl config ->
  (forall k v, setError E k v = None) ->
  exists d',
    resourceVultrKubernetesCreate E W d h =
      (Some ([], d'),
       h2 ++ [CallGetCluster (Cluster_ID cluster);
              CallGetKubeConfig (Cluster_ID cluster)]) /\
    Id d' = Cluster_ID cluster /\
    GetString "status" d' = Cluster_Status vke /\
    GetString "kube_config" d' = KubeConfig_KubeConfig config /\
    prior d' = prior d.
Proof.
  intros Hc Hw Hg Hk Hset.
  set (d1 := SetId (Cluster_ID cluster) d) in *.
  destruct (resourceVultrKubernetesRead_success_aux E d1 vke config h2 Hg Hk Hset)
    as [Hds [Hid [_ [_ [_ [_ [_ [Hst [Hkc Hh]]]]]]]]].
  pose proof (resourceVultrKubernetesRead_frame_aux E d1 h2 "label") as Hfr.
  destruct (resourceVultrKubernetesRead E d1 h2) as [[ds d'] h3] eqn:Hr.
  cbn [fst snd] in *. subst ds h3.
  exists d'. split.
  - unfold resourceVultrKubernetesCreate, bind, CreateCluster, call, ret.
    rewrite Hc. fold d1. rewrite Hw, Hr. reflexivity.
  - repeat split; try assumption.
    apply Hfr. unfold readKeys. simpl. intros H.
    repeat (destruct H as [H|H]; [discriminate H|]). exact H.
Qed.

Lemma resourceVultrKubernetesCreate_success_witness :
  exists d',
    resourceVultrKubernetesCreate convergingEnv fetchOnce (emptyData "") [] =
      (Some ([], d'),
       [CallCreateCluster (createRequest (emptyData "")); CallGetCluster "vke-1"]
         ++ [CallGetCluster "vke-1"; CallGetKubeConfig "vke-1"]) /\
    Id d' = "vke-1" /\
    GetString "status" d' = "pending" /\
    GetString "kube_config" d' = "a3ViZQ==" /\
    prior d' = ∅.
Proof.
  apply (resourceVultrKubernetesCreate_success convergingEnv fetchOnce
           (emptyData "") pendingCluster pendingCluster
           {| KubeConfig_KubeConfig := "a3ViZQ==" |} (Some pendingCluster) []
           [CallCreateCluster (createRequest (emptyData "")); CallGetCluster "vke-1"]).
  - reflexivity.
  - reflexivity.
  - reflexivity.
  - reflexivity.
  - intros k v. reflexivity.
Defined.

Lemma generateNodePool_lookup (pools : list NodePoolAttrs) :
  forall (i : nat) (r : NodePoolAttrs),
    pools !! i = Some r ->
    generateNodePool pools !! i =
      Some {| NodePoolReq_NodeQuantity := pool_node_quantity r;
              NodePoolReq_Label := pool_label r;
              NodePoolReq_Plan := pool_plan r;
              NodePoolReq_Tag := tfVKEDefault;
              NodePoolReq_AutoScaler := Some (pool_auto_scaler r);
              NodePoolReq_MinNodes := pool_min_nodes r;
              NodePoolReq_MaxNodes := pool_max_nodes r |}.
Proof.
  induction pools as [|p pools IH]; intros i r Hi; [discriminate Hi|].
  destruct i as [|i]; simpl in *.
  - injection Hi as ->. reflexivity.
  - apply IH, Hi.
Qed.

Lemma generateNodePool_length (pools : list NodePoolAttrs) :
  length (generateNodePool pools) = length pools.
Proof. induction pools as [|p pools IH]; simpl; [reflexivity|]. rewrite IH. reflexivity. Qed.

Lemma createRequest_pools (d : ResourceData) :
  ClusterReq_NodePools (createRequest d) =
    generateNodePool (GetNodePools "node_pools" d).
Proof.
  unfold createRequest, GetOkNodePools. simpl.
  destruct (GetNodePools "node_pools" d); reflexivity.
Qed.

(** X14.  The request of [Create] is built from [label], [region],
    [version] and [node_pools] alone; it has one node-pool request per
    configured pool, in the same order, each with the settings of its
    pool and a non-nil autoscaler flag; with [node_pools] unset it has
    none. *)
Theorem createRequest_frame (d d' : ResourceData) :
  (forall key, In key createKeys -> attrs d !! key = attrs d' !! key) ->
  createRequest d = createRequest d' /\
  length (ClusterReq_NodePools (createRequest d)) =
    length (GetNodePools "node_pools" d) /\
  (forall (i : nat) (r : NodePoolAttrs),
     GetNodePools "node_pools" d !! i = Some r ->
     exists q,
       ClusterReq_NodePools (createRequest d) !! i = Some q /\
       NodePoolReq_Label q = pool_label r /\
       NodePoolReq_Plan q = pool_plan r /\
       NodePoolReq_NodeQuantity q = pool_node_quantity r /\
       NodePoolReq_AutoScaler q = Some (pool_auto_scaler r) /\
       NodePoolReq_MinNodes q = pool_min_nodes r /\
       NodePoolReq_MaxNodes q = pool_max_nodes r) /\
  (attrs d !! "node_pools" = None -> ClusterReq_NodePools (createRequest d) = []).
Proof.
  intros Hagree. split; [|split; [|split]].
  - unfold createRequest, GetOkNodePools, GetNodePools, GetString,
      readNodePools, readString.
    rewrite <- !Hagree by (unfold createKeys; simpl; tauto). reflexivity.
  - rewrite createRequest_pools. apply generateNodePool_length.
  - intros i r Hi. rewrite createRequest_pools.
    eexists. split; [apply generateNodePool_lookup; exact Hi|].
    repeat split.
  - intros Hnone. rewrite createRequest_pools.
    unfold GetNodePools, readNodePools. rewrite Hnone. reflexivity.
Qed.

Lemma createRequest_frame_witness :
  createRequest newPoolData = createRequest (SetId "other" newPoolData) /\
  length (ClusterReq_NodePools (createRequest newPoolData)) =
    length (GetNodePools "node_pools" newPoolData) /\
  (forall (i : nat) (r : NodePoolAttrs),
     GetNodePools "node_pools" newPoolData !! i = Some r ->
     exists q,
       ClusterReq_NodePools (createRequest newPoolData) !! i = Some q /\
       NodePoolReq_Label q = pool_label r /\
       NodePoolReq_Plan q = pool_plan r /\
       NodePoolReq_NodeQuantity q = pool_node_quantity r /\
       NodePoolReq_AutoScaler q = Some (pool_auto_scaler r) /\
       NodePoolReq_MinNodes q = pool_min_nodes r /\
       NodePoolReq_MaxNodes q = pool_max_nodes r) /\
  (attrs newPoolData !! "node_pools" = None ->
   ClusterReq_NodePools (createRequest newPoolData) = []).
Proof.
  apply (createRequest_frame newPoolData (SetId "other" newPoolData)).
  intros key _. reflexivity.
Defined.

(** ** [Delete], and node pools through [Read] and back *)



(** X16.  [flattenNodePool] returns exactly one map for the pool, which
    carries the ID, the tag and the settings of the pool as they are,
    whatever the tag is, and one entry per node, in the order of the
    nodes. *)
Theorem flattenNodePool_one_map (np : NodePool) :
  exists p,
    flattenNodePool np = [p] /\
    pool_id p = NodePool_ID np /\
    pool_tag p = NodePool_Tag np /\
    pool_label p = NodePool_Label np /\
    pool_plan p = NodePool_Plan np /\
    pool_node_quantity p = NodePool_NodeQuantity np /\
    pool_auto_scaler p = NodePool_AutoScaler np /\
    pool_min_nodes p = NodePool_MinNodes np /\
    pool_max_nodes p = NodePool_MaxNodes np /\
    length (pool_nodes p) = length (NodePool_Nodes np) /\
    (forall (i : nat) (v : Node),
       NodePool_Nodes np !! i = Some v ->
       pool_nodes p !! i =
         Some {| node_id := Node_ID v; node_status := Node_Status v;
                 node_date_created := Node_DateCreated v;
                 node_label := Node_Label v |}).
Proof.
  eexists. split; [reflexivity|].
  cbn [pool_id pool_tag pool_label pool_plan pool_node_quantity
       pool_auto_scaler pool_min_nodes pool_max_nodes pool_nodes].
  repeat (split; [reflexivity|]).
  split; [apply length_map|].
  intros i v Hi. rewrite list_lookup_fmap, Hi. reflexivity.
Qed.

(** X17.  What [Read] stores for the default node pool gives that pool
    back: after a [Read] that found a pool with the default tag and
    stored it, the request [Create] would build from the resource data
    has exactly one node-pool request, with the settings of that pool. *)
Theorem resourceVultrKubernetesRead_createRequest
    (E : Env) (d : ResourceData) (h : History) (vke : Cluster)
    (before after : list NodePool) (v : NodePool) :
  getCluster E h (Id d) = inl vke ->
  Cluster_NodePools vke = before ++ v :: after ->
  Forall (fun p => NodePool_Tag p <> tfVKEDefault) before ->
  NodePool_Tag v = tfVKEDefault ->
  setError E "node_pools" (VNodePools (flattenNodePool v)) = None ->
  exists q,
    ClusterReq_NodePools
      (createRequest (snd (fst (resourceVultrKubernetesRead E d h)))) = [q] /\
    samePoolSettings v q /\
    NodePoolReq_Tag q = tfVKEDefault.
Proof.
  intros Hg Hp Hb Hv Hset.
  assert (Hnp : GetNodePools "node_pools"
                  (snd (fst (resourceVultrKubernetesRead E d h))) =
                flattenNodePool v).
  { rewrite (resourceVultrKubernetesRead_node_pools E d
               (fst (SetAttr E "node_pools" (VNodePools (flattenNodePool v)) d))
               vke h Hg).
    - unfold SetAttr. rewrite Hset. unfold GetNodePools, readNodePools. simpl.
      rewrite lookup_insert_eq. reflexivity.
    - rewrite Hp, (setDefaultNodePool_first E v after d Hv before Hb).
      unfold SetAttr. rewrite Hset. reflexivity. }
  rewrite createRequest_pools, Hnp.
  eexists. split; [reflexivity|]. split; [|reflexivity]. repeat split.
Qed.

Lemma resourceVultrKubernetesRead_createRequest_witness :
  exists q,
    ClusterReq_NodePools
      (createRequest
         (snd (fst (resourceVultrKubernetesRead pooledEnv (emptyData "vke-1") []))))
      = [q] /\
    samePoolSettings (mkPool "np-a" "tf-vke-default" 2) q /\
    NodePoolReq_Tag q = tfVKEDefault.
Proof.
  apply (resourceVultrKubernetesRead_createRequest pooledEnv (emptyData "vke-1")
           [] pooledCluster [mkPool "np-other" "other" 1]
           [mkPool "np-b" "tf-vke-default" 3] (mkPool "np-a" "tf-vke-default" 2)).
  - reflexivity.
  - reflexivity.
  - repeat constructor. discriminate.
  - reflexivity.
  - reflexivity.
Defined.

(** X18.  Each call of the refresh function makes exactly one
    [GetCluster] call, for the ID the resource data carries, whatever the
    attribute and the answer.  For [status] it never returns a not-found
    observation: without a payload there is an error, and with a payload
    the label is the status of the cluster read. *)
Theorem newVKEStateRefresh_status
    (E : Env) (d : ResourceData) (attr : string) (h : History) :
  snd (newVKEStateRefresh E d attr h) = h ++ [CallGetCluster (Id d)] /\
  (attr = "status" ->
   let obs := fst (newVKEStateRefresh E d attr h) in
   (raw obs = None -> err obs <> None) /\
   (forall vke, raw obs = Some vke ->
      getCluster E h (Id d) = inl vke /\
      state obs = Cluster_Status vke /\ err obs = None)).
Proof.
  unfold newVKEStateRefresh, bind, GetCluster, call, ret. split.
  - destruct (getCluster E h (Id d)); [destruct (String.eqb attr "status")|];
      reflexivity.
  - intros ->. destruct (getCluster E h (Id d)) as [c|e]; simpl; split.
    + discriminate.
    + intros vke Hv. injection Hv as <-. repeat split.
    + discriminate.
    + discriminate.
Qed.

Lemma newVKEStateRefresh_status_witness :
  snd (newVKEStateRefresh convergingEnv (emptyData "vke-1") "status" []) =
    [] ++ [CallGetCluster "vke-1"] /\
  ("status" = "status" ->
   let obs := fst (newVKEStateRefresh convergingEnv (emptyData "vke-1") "status" [])
   in
   (raw obs = None -> err obs <> None) /\
   (forall vke, raw obs = Some vke ->
      getCluster convergingEnv [] "vke-1" = inl vke /\
      state obs = Cluster_Status vke /\ err obs = None)).
Proof.
  exact (newVKEStateRefresh_status convergingEnv (emptyData "vke-1") "status" []).
Defined.

(** X12.  [Update] writes nothing to the resource data itself: what it
    returns is the data it was given, when one of its own calls failed,
    or else what [Read] returns for that data. *)
Theorem resourceVultrKubernetesUpdate_data
    (E : Env) (d : ResourceData) (h : History) :
  (snd (fst (resourceVultrKubernetesUpdate E d h)) = d /\
   diag.HasError (fst (fst (resourceVultrKubernetesUpdate E d h))) = true) \/
  exists h',
    fst (resourceVultrKubernetesUpdate E d h) =
    fst (resourceVultrKubernetesRead E d h').
Proof.
  unfold resourceVultrKubernetesUpdate, bind.
  assert (Hl : forall r h1, updateLabel E d h = (Some r, h1) ->
                            diag.HasError r = true).
  { unfold updateLabel, bind, UpdateCluster, call, ret.
    destruct (HasChangeString "label" d); [|discriminate].
    destruct (updateCluster E h (Id d) _); [|discriminate].
    intros r h1 Heq. injection Heq as <- _. reflexivity. }
  destruct (updateLabel E d h) as [[ds|] h1].
  { left. split; [reflexivity|]. exact (Hl ds h1 eq_refl). }
  assert (Hn : forall r h2, updateNodePools E d h1 = (Some r, h2) ->
                            diag.HasError r = true).
  { unfold updateNodePools, GetChangeNodePools.
    destruct (HasChangeNodePools "node_pools" d); [|discriminate].
    destruct (readNodePools (attrs d) "node_pools") as [|n newNP];
      destruct (readNodePools (prior d) "node_pools") as [|o oldNP];
      try discriminate;
      unfold bind, UpdateNodePool, DeleteNodePool, CreateNodePool, call, ret.
    - destruct (deleteNodePool E h1 (Id d) (pool_id o)); [|discriminate].
      intros r h2 Heq. injection Heq as <- _. reflexivity.
    - destruct (createNodePool E h1 (Id d) _); [discriminate|].
      intros r h2 Heq. injection Heq as <- _. reflexivity.
    - destruct (updateNodePool E h1 (Id d) (pool_id n) _); [discriminate|].
      intros r h2 Heq. injection Heq as <- _. reflexivity. }
  destruct (updateNodePools E d h1) as [[ds|] h2].
  { left. split; [reflexivity|]. exact (Hn ds h2 eq_refl). }
  right. exists h2. reflexivity.
Qed.

(** [Create] when the cluster is gone by the time [Read] looks for it:
    no diagnostic, and an empty ID. *)
Example resourceVultrKubernetesCreate_gone_after_wait :
  match fst (resourceVultrKubernetesCreate
               (scripted (inl pendingCluster) [inl activeCluster] (inr gone) never)
               fetchOnce (emptyData "") []) with
  | Some (ds, d) => ds = [] /\ Id d = ""
  | None => False
  end.
Proof. vm_compute. split; reflexivity. Qed.
